(** * Pull-request fetching, commit reconciliation and ordering

    A shallow embedding of [PullRequests] ([getSingle], [getBetweenDates],
    [filterCommits]) and of [sortPullRequests] from the TypeScript source,
    together with the JavaScript runtime operations these functions rely on
    ([String.prototype.includes], the search of the regular expression
    [/Merge pull request #(\d+)/], [Number.parseInt], [Array.prototype.sort],
    [moment] comparisons, exceptions and the action log). *)

From Stdlib Require Import ZArith NArith List String Ascii Bool Lia.
From Stdlib Require Import Permutation Sorted DecimalString.
Import ListNotations.

Local Open Scope string_scope.
Local Open Scope Z_scope.

(* ================================================================== *)
(** ** Moments *)

(** A [moment.Moment] is either a valid instant (milliseconds since the
    epoch) or the invalid moment, which is what [moment(null)] builds.
    Every comparison that involves an invalid moment answers [false]. *)
Module Moment.

Inductive t : Type :=
| Valid (ms : Z)
| Invalid.

Definition isBefore (a b : t) : bool :=
  match a, b with
  | Valid x, Valid y => x <? y
  | _, _ => false
  end.

Definition isAfter (a b : t) : bool :=
  match a, b with
  | Valid x, Valid y => y <? x
  | _, _ => false
  end.

Definition isValid (a : t) : bool :=
  match a with Valid _ => true | Invalid => false end.

(** [a] is an instant no later than [b]. *)
Definition le (a b : t) : Prop :=
  match a, b with
  | Valid x, Valid y => x <= y
  | _, _ => False
  end.

End Moment.

(** A timestamp field of an API response: [null], or the instant its
    ISO-8601 text denotes. *)
Definition Timestamp : Type := option Z.

(** [moment(x)] for such a field. *)
Definition moment (x : Timestamp) : Moment.t :=
  match x with
  | Some ms => Moment.Valid ms
  | None => Moment.Invalid
  end.

(** JavaScript truthiness of such a field ([!!x]). *)
Definition truthy (x : Timestamp) : bool :=
  match x with Some _ => true | None => false end.

(* ================================================================== *)
(** ** Data model *)

Record PullRequestInfo : Type := {
  number : Z;
  title : string;
  htmlURL : string;
  mergedAt : Moment.t;
  author : string;
  repoName : string;
  labels : list string;
  body : string
}.

(** The part of a pull request, as the REST API delivers it, that the code
    reads.  Every object that the code reads a field of is there: an entry
    delivered with [user: null], on which reading [login] throws, is not a
    value of this type. *)
Record Label : Type := { name : string }.
Record User : Type := { login : string }.
Record Repo : Type := { full_name : string }.
Record Base : Type := { repo : Repo }.

Record PullData : Type := {
  pr_number : Z;
  pr_title : string;
  html_url : string;
  merged_at : Timestamp;
  user : User;
  base : Base;
  pr_labels : list Label;
  pr_body : string
}.

(** The object literal that both [getSingle] and [getBetweenDates] build from
    a response entry. *)
Definition toInfo (pr : PullData) : PullRequestInfo :=
  {| number := pr_number pr;
     title := pr_title pr;
     htmlURL := html_url pr;
     mergedAt := moment (merged_at pr);
     author := login (user pr);
     repoName := full_name (repo (base pr));
     labels := map name (pr_labels pr);
     body := pr_body pr |}.

(* ================================================================== *)
(** ** [Array.prototype.sort] and [sortPullRequests] *)

(** [Array.prototype.sort] is a stable sort: for a comparator that is a
    consistent ordering its result is the one stable arrangement, which
    insertion from the right computes.  A comparator result above zero puts
    the second argument first. *)
Section ArraySort.
Context {A : Type}.
Variable compareFn : A -> A -> Z.

Fixpoint insertSorted (x : A) (l : list A) : list A :=
  match l with
  | [] => [x]
  | y :: l' =>
      if 0 <? compareFn x y then y :: insertSorted x l' else x :: l
  end.

Fixpoint Array_sort (l : list A) : list A :=
  match l with
  | [] => []
  | x :: l' => insertSorted x (Array_sort l')
  end.
End ArraySort.

(** The comparator of the ascending branch. *)
Definition compareAscending (a b : PullRequestInfo) : Z :=
  if Moment.isBefore (mergedAt a) (mergedAt b) then -1
  else if Moment.isBefore (mergedAt b) (mergedAt a) then 1
  else 0.

(** The comparator of the descending branch: the same body with the
    parameters named in the opposite order, [(b, a) => ...]. *)
Definition compareDescending (b a : PullRequestInfo) : Z :=
  if Moment.isBefore (mergedAt a) (mergedAt b) then -1
  else if Moment.isBefore (mergedAt b) (mergedAt a) then 1
  else 0.

Definition sortPullRequests (pullRequests : list PullRequestInfo)
    (ascending : bool) : list PullRequestInfo :=
  if ascending then Array_sort compareAscending pullRequests
  else Array_sort compareDescending pullRequests.

(* ================================================================== *)
(** ** Exceptions, the action log and asynchronous calls *)

(** A thrown [Error] object: a [RequestError] of the HTTP client carries the
    response status, a transport failure or a [TypeError] carries none. *)
Record Error : Type := {
  error_name : string;
  status : option Z;
  message : string
}.

(** How an evaluation completes: with a value, or by throwing. *)
Inductive Completion (A : Type) : Type :=
| Return (a : A)
| Throw (e : Error).
Arguments Return {A} a.
Arguments Throw {A} e.

Inductive LogEntry : Type :=
| Info (msg : string)
| Warning (msg : string).

(** What a run leaves behind outside its result: the lines written through
    [core.info] and [core.warning], oldest first, and the number of requests
    sent to the platform. *)
Record World : Type := {
  log : list LogEntry;
  requests : nat
}.

Definition Async (A : Type) : Type := World -> Completion A * World.

Definition ret {A : Type} (a : A) : Async A := fun w => (Return a, w).

Definition bind {A B : Type} (m : Async A) (k : A -> Async B) : Async B :=
  fun w =>
    match m w with
    | (Return a, w') => k a w'
    | (Throw e, w') => (Throw e, w')
    end.

Definition throw {A : Type} (e : Error) : Async A := fun w => (Throw e, w).

(** [try { m } catch (e) { handler e }] *)
Definition tryCatch {A : Type} (m : Async A) (handler : Error -> Async A)
    : Async A :=
  fun w =>
    match m w with
    | (Return a, w') => (Return a, w')
    | (Throw e, w') => handler e w'
    end.

Declare Scope async_scope.
Delimit Scope async_scope with async.
Notation "x <- m ;; k" := (bind m (fun x => k))
  (at level 100, m at next level, right associativity) : async_scope.
Notation "m ;; k" := (bind m (fun _ => k))
  (at level 100, right associativity) : async_scope.

Definition core_info (msg : string) : Async unit :=
  fun w => (Return tt, {| log := log w ++ [Info msg]; requests := requests w |}).

Definition core_warning (msg : string) : Async unit :=
  fun w => (Return tt, {| log := log w ++ [Warning msg]; requests := requests w |}).

(** Awaiting a call to the platform: one request is sent, and the call
    completes the way the platform answers it. *)
Definition await {A : Type} (answer : Completion A) : Async A :=
  fun w => (answer, {| log := log w; requests := S (requests w) |}).

(** The world before a call. *)
Definition initial : World := {| log := []; requests := 0 |}.

(** Reading a property of [undefined] throws a [TypeError]; its text depends
    on the engine. *)
Definition TypeError_undefined (property : string) : Error :=
  {| error_name := "TypeError";
     status := None;
     message := "Cannot read properties of undefined (reading '" ++ property ++ "')" |}.

(** [`${n}`] for an integral number below [10^21] in magnitude; from there
    on JavaScript writes a number with an exponent. *)
Definition toString (n : Z) : string := NilZero.string_of_int (Z.to_int n).

(* ================================================================== *)
(** ** The HTTP client *)

Record Response (A : Type) : Type := { data : A }.
Arguments data {A} r.

Record ListOptions : Type := {
  opt_owner : string;
  opt_repo : string;
  opt_state : string;
  opt_sort : string;
  opt_direction : string
}.

(** The platform as the client sees it: the answer to a request for one pull
    request, and for a list request the answers to the successive page
    requests, as far as the platform has pages.  The iterator of the client
    always sends a first request, so a platform has at least one answer;
    the empty list is the model's own. *)
Record Octokit : Type := {
  pulls_get : string -> string -> Z -> Completion (Response PullData);
  paginate_iterator : ListOptions -> list (Completion (Response (list PullData)))
}.

(** [octokit.pulls.list.endpoint.merge({...})] *)
Definition pulls_list_endpoint_merge (owner repo : string) : ListOptions :=
  {| opt_owner := owner;
     opt_repo := repo;
     opt_state := "closed";
     opt_sort := "updated";
     opt_direction := "desc" |}.

(* ================================================================== *)
(** ** [PullRequests.getSingle] *)

Local Open Scope async_scope.

Definition getSingle (octokit : Octokit) (owner repo : string) (prNumber : Z)
    : Async (option PullRequestInfo) :=
  tryCatch
    (pr <- await (pulls_get octokit owner repo prNumber) ;;
     ret (Some (toInfo (data pr))))
    (fun e =>
       core_warning ("Cannot find PR " ++ owner ++ "/" ++ repo ++ "#"
                     ++ toString prNumber ++ " - " ++ message e) ;;
       ret None).

(* ================================================================== *)
(** ** [PullRequests.getBetweenDates] *)

(** [firstPR.merged_at], where [firstPR] is [prs[0]] and so [undefined] for
    an empty page. *)
Definition get_merged_at (firstPR : option PullData) : Async Timestamp :=
  match firstPR with
  | Some pr => ret (merged_at pr)
  | None => throw (TypeError_undefined "merged_at")
  end.

(** The [for await] loop over the page iterator; [mergedPRs] is the array
    filled so far.  Each round asks the iterator for its next page. *)
Fixpoint forAwait (fromDate : Moment.t) (maxPullRequests : Z)
    (iterator : list (Completion (Response (list PullData))))
    (mergedPRs : list PullRequestInfo) : Async (list PullRequestInfo) :=
  match iterator with
  | [] => ret (sortPullRequests mergedPRs true)
  | next :: iterator' =>
      response <- await next ;;
      let prs := data response in
      let mergedPRs :=
        (mergedPRs ++ map toInfo (filter (fun p => truthy (merged_at p)) prs))%list in
      let firstPR := nth_error prs 0 in
      firstPR_merged_at <- get_merged_at firstPR ;;
      if (truthy firstPR_merged_at
          && Moment.isAfter fromDate (moment firstPR_merged_at))
         || (maxPullRequests <=? Z.of_nat (List.length mergedPRs))
      then
        (if maxPullRequests <=? Z.of_nat (List.length mergedPRs)
         then core_info ("Reached 'maxPullRequests' count "
                         ++ toString maxPullRequests)
         else ret tt) ;;
        ret (sortPullRequests mergedPRs true)
      else forAwait fromDate maxPullRequests iterator' mergedPRs
  end.

Definition getBetweenDates (octokit : Octokit) (owner repo : string)
    (fromDate toDate : Moment.t) (maxPullRequests : Z)
    : Async (list PullRequestInfo) :=
  let mergedPRs := [] in
  let options := pulls_list_endpoint_merge owner repo in
  forAwait fromDate maxPullRequests (paginate_iterator octokit options) mergedPRs.

(* ================================================================== *)
(** ** Strings, the merge pattern and [Number.parseInt] *)

(** A string is the sequence of its code units; the operations below read
    it unit by unit, as [includes] and the pattern search do. *)

(** [p] is the beginning of [s]. *)
Fixpoint startsWith (s p : string) {struct p} : bool :=
  match p, s with
  | EmptyString, _ => true
  | String a p', String b s' => Ascii.eqb a b && startsWith s' p'
  | String _ _, EmptyString => false
  end.

(** [s.includes(sub)]: [sub] occurs somewhere in [s]. *)
Fixpoint includes (s sub : string) : bool :=
  if startsWith s sub then true
  else match s with
       | EmptyString => false
       | String _ s' => includes s' sub
       end.

(** The class [\d]: the ten ASCII digits. *)
Definition isDigit (c : ascii) : bool :=
  ((48 <=? N_of_ascii c) && (N_of_ascii c <=? 57))%N.

(** The longest run of digits at the beginning of [s], which is what the
    greedy [\d+] takes. *)
Fixpoint takeDigits (s : string) : string :=
  match s with
  | String c s' => if isDigit c then String c (takeDigits s') else EmptyString
  | EmptyString => EmptyString
  end.

(** [s] without its first [n] characters. *)
Fixpoint drop (n : nat) (s : string) : string :=
  match n, s with
  | O, _ => s
  | S n', String _ s' => drop n' s'
  | S _, EmptyString => EmptyString
  end.

(** The result of a successful match: the matched text and the first
    capture group. *)
Record RegExpMatchArray : Type := {
  match_0 : string;
  match_1 : string
}.

Definition prLiteral : string := "Merge pull request #".

(** An attempt of [/Merge pull request #(\d+)/] at the beginning of [s]. *)
Definition matchHere (s : string) : option RegExpMatchArray :=
  if startsWith s prLiteral then
    match takeDigits (drop (String.length prLiteral) s) with
    | EmptyString => None
    | digits => Some {| match_0 := prLiteral ++ digits; match_1 := digits |}
    end
  else None.

(** [s.match(prRegex)]: the pattern has no flag, so the search tries each
    position from the left and answers with the first success, [null] when
    there is none. *)
Fixpoint match_prRegex (s : string) : option RegExpMatchArray :=
  match matchHere s with
  | Some m => Some m
  | None =>
      match s with
      | EmptyString => None
      | String _ s' => match_prRegex s'
      end
  end.

Module Number.

(** The numbers that [parseInt] yields for unsigned decimal text: the
    non-negative integers that a double represents, [Infinity] and [NaN]. *)
Inductive t : Type :=
| Finite (n : N)
| Infinity
| NaN.

Local Open Scope N_scope.

(** The double nearest to the integer [n], ties to the even significand;
    from [2^1024] on the rounded value is [Infinity]. *)
Definition ofInteger (n : N) : t :=
  if n <? 2 ^ 53 then Finite n
  else
    let e := N.log2 n - 52 in
    let q := n / 2 ^ e in
    let r := n mod 2 ^ e in
    let half := 2 ^ (e - 1) in
    let q' := if (half <? r) || ((r =? half) && N.odd q) then q + 1 else q in
    let v := q' * 2 ^ e in
    if 2 ^ 1024 <=? v then Infinity else Finite v.

Definition digitValue (c : ascii) : N := N_of_ascii c - 48.

(** The integer that a run of decimal digits denotes, after [acc]. *)
Fixpoint decimal (acc : N) (digits : string) : N :=
  match digits with
  | EmptyString => acc
  | String c digits' => decimal (10 * acc + digitValue c) digits'
  end.

(** [Number.parseInt(s, 10)] for a text that begins with neither white
    space nor a sign, as every capture of [\d+] does: the digits at its
    beginning are read as a decimal integer, and the result is [NaN] when
    there is none.  The integer is read in full; the language standard also
    lets an engine read the digits after the twentieth as zeros. *)
Definition parseInt (s : string) : t :=
  match takeDigits s with
  | EmptyString => NaN
  | digits => ofInteger (decimal 0 digits)
  end.

End Number.

(* ================================================================== *)
(** ** [PullRequests.filterCommits] *)

(** Modelled from the spec: [CommitInfo] is declared in [./commits]; the
    spec gives it a sha, a summary line, an author and an optional pull
    request number that reconciliation assigns. *)
Record CommitInfo : Type := {
  sha : string;
  summary : string;
  commit_author : string;
  prNumber : option Number.t
}.

(** [commit.prNumber = n] *)
Definition set_prNumber (commit : CommitInfo) (n : Number.t) : CommitInfo :=
  {| sha := sha commit;
     summary := summary commit;
     commit_author := commit_author commit;
     prNumber := Some n |}.

(** The inner loop: [matched] becomes [true] at the first exclude text that
    the summary includes. *)
Fixpoint matchedExclude (summary : string) (excludeMergeBranches : list string)
    : bool :=
  match excludeMergeBranches with
  | [] => false
  | excludeMergeBranch :: rest =>
      if includes summary excludeMergeBranch then true
      else matchedExclude summary rest
  end.

(** [excludeMergeBranches] is [None] for a caller that passes [undefined],
    which the guard [if(excludeMergeBranches)] lets through; every array,
    the empty one too, enters the guarded block. *)
Fixpoint filterCommits (commits : list CommitInfo)
    (excludeMergeBranches : option (list string)) : list CommitInfo :=
  match commits with
  | [] => []
  | commit :: rest =>
      let matched :=
        match excludeMergeBranches with
        | Some excludes => matchedExclude (summary commit) excludes
        | None => false
        end in
      if matched then filterCommits rest excludeMergeBranches
      else
        match match_prRegex (summary commit) with
        | None => filterCommits rest excludeMergeBranches
        | Some m =>
            set_prNumber commit (Number.parseInt (match_1 m))
              :: filterCommits rest excludeMergeBranches
        end
  end.

(* ================================================================== *)
(** ** Observations of a call and vocabulary of the statements *)

(** A call that starts in the [initial] world: how it completes, what it
    logs and how many requests it sends. *)
Definition completion {A : Type} (m : Async A) : Completion A := fst (m initial).
Definition logged {A : Type} (m : Async A) : list LogEntry := log (snd (m initial)).
Definition requested {A : Type} (m : Async A) : nat := requests (snd (m initial)).

(** A page iterator all of whose requests succeed. *)
Definition delivering (pages : list (list PullData))
    : list (Completion (Response (list PullData))) :=
  map (fun prs => Return {| data := prs |}) pages.

(** The pages among the answers of an iterator. *)
Fixpoint delivered (answers : list (Completion (Response (list PullData))))
    : list (list PullData) :=
  match answers with
  | [] => []
  | Return response :: rest => data response :: delivered rest
  | Throw _ :: rest => delivered rest
  end.

(** The entries of a page with a merge timestamp, and what the loop pushes
    for a run of pages. *)
Definition mergedEntries (prs : list PullData) : list PullData :=
  filter (fun p => truthy (merged_at p)) prs.

Definition pushedFor (pages : list (list PullData)) : list PullRequestInfo :=
  flat_map (fun prs => map toInfo (mergedEntries prs)) pages.

(** Entry [p] was merged before [fromDate]. *)
Definition mergedBefore (fromDate : Moment.t) (p : PullData) : bool :=
  truthy (merged_at p) && Moment.isAfter fromDate (moment (merged_at p)).

(** Entry [p] was merged, and after [fromDate]. *)
Definition mergedAfter (fromDate : Moment.t) (p : PullData) : bool :=
  truthy (merged_at p) && Moment.isBefore fromDate (moment (merged_at p)).

(** The condition on which the code leaves the loop after page [k] of
    [pages], when [count] items were collected before the first of them: the
    first entry of the page was merged before [fromDate], or the items
    collected up to this page number [maxPullRequests] or more. *)
Definition stopsAfterFrom (count : nat) (fromDate : Moment.t)
    (maxPullRequests : Z) (pages : list (list PullData)) (k : nat) : bool :=
  match nth_error pages k with
  | Some prs =>
      match prs with
      | firstPR :: _ => mergedBefore fromDate firstPR
      | [] => false
      end
      || (maxPullRequests
          <=? Z.of_nat (count + List.length (pushedFor (firstn (S k) pages))))
  | None => false
  end.

Definition stopsAfter : Moment.t -> Z -> list (list PullData) -> nat -> bool :=
  stopsAfterFrom 0.

(** No page is empty. *)
Definition nonEmptyPages (pages : list (list PullData)) : Prop :=
  Forall (fun prs => prs <> []) pages.

(** No page begins with an entry merged before [fromDate]. *)
Definition noOldFirstEntry (fromDate : Moment.t) (pages : list (list PullData))
    : Prop :=
  Forall (fun prs =>
            match prs with
            | firstPR :: _ => mergedBefore fromDate firstPR = false
            | [] => True
            end) pages.

(** How many entries of the pages were merged after [fromDate]. *)
Definition availableAfter (fromDate : Moment.t) (pages : list (list PullData))
    : nat :=
  List.length (filter (mergedAfter fromDate) (List.concat pages)).

(** The same condition as the specification words it, on the last entry of
    the page. *)
Definition specStopsAfter (fromDate : Moment.t) (maxPullRequests : Z)
    (pages : list (list PullData)) (k : nat) : bool :=
  match nth_error pages k with
  | Some prs =>
      match last (map Some prs) None with
      | Some lastPR => mergedBefore fromDate lastPR
      | None => false
      end
      || (maxPullRequests <=? Z.of_nat (List.length (pushedFor (firstn (S k) pages))))
  | None => false
  end.

(** Ascending by merge time: each element's [mergedAt] is an instant no
    later than the next one's. *)
Definition mergedAt_le (a b : PullRequestInfo) : Prop :=
  Moment.le (mergedAt a) (mergedAt b).

Definition ascendingByMergeTime (l : list PullRequestInfo) : Prop :=
  Sorted mergedAt_le l.

(** The merge time of [p] is an instant. *)
Definition validMergeTime (p : PullRequestInfo) : Prop :=
  Moment.isValid (mergedAt p) = true.

(** Every merge time of the list is an instant, and no two are equal. *)
Definition distinctMergeTimes (l : list PullRequestInfo) : Prop :=
  Forall validMergeTime l /\ NoDup (map mergedAt l).

(** [s] contains [sub]: some text before and some text after. *)
Definition contains (s sub : string) : Prop :=
  exists before after, s = before ++ sub ++ after.

(** [s] is made of digits only. *)
Fixpoint allDigits (s : string) : bool :=
  match s with
  | EmptyString => true
  | String c s' => isDigit c && allDigits s'
  end.

(** [s] does not begin with a digit. *)
Definition noDigitAhead (s : string) : bool :=
  match s with
  | EmptyString => true
  | String c _ => negb (isDigit c)
  end.

(** The summary [s] reads "Merge pull request #" and the number [digits] at
    the leftmost place where that text is followed by a digit, and [digits]
    is the whole number found there. *)
Definition mergesPullRequest (s digits : string) : Prop :=
  exists before after,
    s = before ++ prLiteral ++ digits ++ after
    /\ digits <> EmptyString
    /\ allDigits digits = true
    /\ noDigitAhead after = true
    /\ forall before' d after',
         s = before' ++ prLiteral ++ String d after' ->
         isDigit d = true ->
         (String.length before <= String.length before')%nat.

(* ================================================================== *)
(** ** Sample platforms *)

(** A closed pull request numbered [n], merged at [merged] or not at all. *)
Definition samplePR (n : Z) (merged : Timestamp) : PullData :=
  {| pr_number := n;
     pr_title := "Change " ++ toString n;
     html_url := "https://example.test/o/r/pull/" ++ toString n;
     merged_at := merged;
     user := {| login := "ann" |};
     base := {| repo := {| full_name := "o/r" |} |};
     pr_labels := [ {| name := "bug" |} ];
     pr_body := "" |}.

(** The answer of the platform for a pull request that does not exist. *)
Definition notFound : Error :=
  {| error_name := "HttpError"; status := Some 404; message := "Not Found" |}.

(** A platform whose list of closed pull requests comes in [pages], and which
    knows no single pull request. *)
Definition platformWith (pages : list (list PullData)) : Octokit :=
  {| pulls_get := fun _ _ _ => Throw notFound;
     paginate_iterator := fun _ => delivering pages |}.

(** One page of twenty pull requests, numbered 1 to 20 and merged at the
    instants 101 to 120. *)
Definition twentyMerged : list PullData :=
  map (fun i => samplePR (Z.of_nat i) (Some (100 + Z.of_nat i))) (seq 1 20).

(** Two pages: the first begins with a fresh entry and ends with an old one,
    the second holds one more fresh entry. *)
Definition freshThenOld : list (list PullData) :=
  [ [ samplePR 1 (Some 10); samplePR 2 (Some 1) ]; [ samplePR 3 (Some 20) ] ].

(** The same entries with the first page in the opposite order. *)
Definition oldThenFresh : list (list PullData) :=
  [ [ samplePR 2 (Some 1); samplePR 1 (Some 10) ]; [ samplePR 3 (Some 20) ] ].

(** A page with one fresh entry, followed by an empty page. *)
Definition thenEmptyPage : list (list PullData) :=
  [ [ samplePR 1 (Some 10) ]; [] ].

(** Three pull requests as the fetcher builds them, merged at 30, 10, 20. *)
Definition sampleItems : list PullRequestInfo :=
  map toInfo [ samplePR 1 (Some 30); samplePR 2 (Some 10); samplePR 3 (Some 20) ].

(** A merge commit of a release branch, and a merge commit of a feature
    branch. *)
Definition releaseMerge : CommitInfo :=
  {| sha := "c3"; summary := "Merge pull request #7 from release/1.0";
     commit_author := "cy"; prNumber := None |}.

Definition featureMerge : CommitInfo :=
  {| sha := "a1"; summary := "Merge pull request #12 from dev/feature";
     commit_author := "ann"; prNumber := None |}.

(** The world after one more request. *)
Definition afterRequest (w : World) : World :=
  {| log := log w; requests := S (requests w) |}.

(* ================================================================== *)
(** ** Further vocabulary *)

(** Descending by merge time: each element's [mergedAt] is an instant no
    earlier than the next one's. *)
Definition descendingByMergeTime (l : list PullRequestInfo) : Prop :=
  Sorted (fun a b => mergedAt_le b a) l.

(** The two moments are the same instant, or both invalid. *)
Definition Moment_eqb (a b : Moment.t) : bool :=
  match a, b with
  | Moment.Valid x, Moment.Valid y => x =? y
  | Moment.Invalid, Moment.Invalid => true
  | _, _ => false
  end.

(** The items of [l] merged at [t], in the order of [l]. *)
Definition mergedAtTime (t : Moment.t) (l : list PullRequestInfo)
    : list PullRequestInfo :=
  filter (fun p => Moment_eqb (mergedAt p) t) l.

(** The line that [getBetweenDates] writes when the bound is reached. *)
Definition reachedMax (maxPullRequests : Z) : LogEntry :=
  Info ("Reached 'maxPullRequests' count " ++ toString maxPullRequests).

(** The answer of a platform in trouble. *)
Definition serverError : Error :=
  {| error_name := "HttpError"; status := Some 500; message := "Server Error" |}.

(** A platform whose successive page requests are answered by [answers]. *)
Definition platformAnswering
    (answers : list (Completion (Response (list PullData)))) : Octokit :=
  {| pulls_get := fun _ _ _ => Throw notFound;
     paginate_iterator := fun _ => answers |}.

(** One page arrives, the request for the next one is refused. *)
Definition pageThenRefusal : list (Completion (Response (list PullData))) :=
  (delivering [ [ samplePR 1 (Some 10) ] ] ++ [ Throw serverError ])%list.

(** A platform that knows pull request [n] of every repository as [pr]. *)
Definition platformKnowing (n : Z) (pr : PullData) : Octokit :=
  {| pulls_get := fun _ _ k =>
                    if k =? n then Return {| data := pr |} else Throw notFound;
     paginate_iterator := fun _ => [] |}.

(** The summary of [c] includes one of the exclude texts; never so without
    an exclude list. *)
Definition excludedBy (excludeMergeBranches : option (list string))
    (c : CommitInfo) : bool :=
  match excludeMergeBranches with
  | Some excludes => matchedExclude (summary c) excludes
  | None => false
  end.

(** [c] passes the exclude list and its summary matches the pattern. *)
Definition keptBy (excludeMergeBranches : option (list string))
    (c : CommitInfo) : bool :=
  negb (excludedBy excludeMergeBranches c)
  && match match_prRegex (summary c) with
     | Some _ => true
     | None => false
     end.

(** [c] with the number of its summary as [prNumber], when it has one. *)
Definition withMatchedNumber (c : CommitInfo) : CommitInfo :=
  match match_prRegex (summary c) with
  | Some m => set_prNumber c (Number.parseInt (match_1 m))
  | None => c
  end.

(* ================================================================== *)
(** ** The action runner [run] *)

(** A command that [run] issues through the actions toolkit.  The value of
    an output is the text the toolkit writes for it: [false] is written as
    the text false, [null] as the empty text. *)
Inductive Command : Type :=
| SetOutput (name value : string)
| StartGroup (name : string)
| SetFailed (msg : string)
| InfoLine (msg : string)
| DebugLine (msg : string).

(** A step of [run]: the commands it issues, oldest first, and how it
    completes.  The commands are those of [run] itself; what the functions
    of the other modules print on their own is not recorded. *)
Definition Action (A : Type) : Type := (list Command * Completion A)%type.

Definition done {A : Type} (a : A) : Action A := ([], Return a).

Definition andThen {A B : Type} (m : Action A) (k : A -> Action B) : Action B :=
  match m with
  | (cs, Return a) => let (cs', c) := k a in ((cs ++ cs')%list, c)
  | (cs, Throw e) => (cs, Throw e)
  end.

(** [try { m } catch (error) { handler error }] *)
Definition tryCatchAction {A : Type} (m : Action A)
    (handler : Error -> Action A) : Action A :=
  match m with
  | (cs, Return a) => (cs, Return a)
  | (cs, Throw e) => let (cs', c) := handler e in ((cs ++ cs')%list, c)
  end.

(** Issuing a command, and calling a function of another module, which
    returns or throws. *)
Definition issue (c : Command) : Action unit := ([c], Return tt).
Definition call {A : Type} (answer : Completion A) : Action A := ([], answer).

(** How the toolkit answers a command: it carries it out, or it throws, as
    [setOutput] does when the file of the outputs cannot be written. *)
Definition Toolkit : Type := Command -> Completion unit.

(** Issuing a command through a toolkit: the command is recorded when the
    toolkit carried it out. *)
Definition issueWith (toolkit : Toolkit) (c : Command) : Action unit :=
  match toolkit c with
  | Return _ => ([c], Return tt)
  | Throw e => ([], Throw e)
  end.

(** The toolkit whose commands never fail: [issue] is [issueWith] for it. *)
Definition alwaysWorks : Toolkit := fun _ => Return tt.

Declare Scope action_scope.
Delimit Scope action_scope with action.
Notation "x <- m ;; k" := (andThen m (fun x => k))
  (at level 100, m at next level, right associativity) : action_scope.
Notation "m ;; k" := (andThen m (fun _ => k))
  (at level 100, right associativity) : action_scope.

(** [a || b] on texts: the empty text is the falsy one. *)
Definition orElse (a b : string) : string :=
  match a with
  | EmptyString => b
  | _ => a
  end.

Definition nonEmpty (a : string) : bool :=
  match a with
  | EmptyString => false
  | _ => true
  end.

(** The keys of the object literal [supportedPlatform], and the members that
    every object literal inherits from [Object.prototype]. *)
Definition supportedPlatform_keys : list string := [ "github"; "gitea" ].

Definition ObjectPrototype_keys : list string :=
  [ "constructor"; "__defineGetter__"; "__defineSetter__"; "hasOwnProperty";
    "__lookupGetter__"; "__lookupSetter__"; "isPrototypeOf";
    "propertyIsEnumerable"; "toString"; "valueOf"; "__proto__";
    "toLocaleString" ].

(** [type in supportedPlatform]: the operator [in] also finds the inherited
    members. *)
Definition isSupportedPlatform (type : string) : bool :=
  existsb (String.eqb type) supportedPlatform_keys
  || existsb (String.eqb type) ObjectPrototype_keys.

(** What the toolkit writes for a [string | null] output value. *)
Definition toCommandValue (value : option string) : string :=
  match value with
  | Some s => s
  | None => EmptyString
  end.

Section Runner.
(** The types of the other modules: a configuration, and an instance of a
    platform class. *)
Variable Configuration : Type.
Variable Repository : Type.

(** What [new supportedPlatform[platform](...)] can yield: an instance of a
    platform class, or, for the inherited member [constructor], which is
    [Object], the wrapper object of the token. *)
Inductive RepositoryUtils : Type :=
| PlatformRepository (r : Repository)
| StringObject (s : string).

(** The arguments of [new ReleaseNotesBuilder(...)], in their order. *)
Record BuilderArguments : Type := {
  arg_baseUrl : string;
  arg_repositoryUtils : RepositoryUtils;
  arg_repositoryPath : string;
  arg_owner : string;
  arg_repo : string;
  arg_fromTag : string;
  arg_toTag : string;
  arg_includeOpen : bool;
  arg_failOnError : bool;
  arg_ignorePreReleases : bool;
  arg_fetchViaCommits : bool;
  arg_fetchReviewers : bool;
  arg_fetchReleaseInformation : bool;
  arg_fetchReviews : bool;
  arg_commitMode : bool;
  arg_exportCache : bool;
  arg_exportOnly : bool;
  arg_cache : string;
  arg_configuration : Configuration
}.

(** What [run] finds around it: the inputs of the action ([core.getInput]
    answers the empty text for an input that is not given), the process
    environment, the context of the workflow, whose [repo] throws when the
    repository is not known, and the functions of the other modules, each
    of which returns or throws.  [notAConstructor] is the [TypeError] of
    [new] on a value that is no constructor; its text depends on the
    engine. *)
Record Environment : Type := {
  getInput : string -> string;
  env_GITHUB_TOKEN : option string;
  context_repo : Completion (string * string);
  retrieveRepositoryPath : string -> Completion string;
  parseConfiguration : string -> Completion (option Configuration);
  resolveConfiguration : string -> string -> Completion (option Configuration);
  mergeConfiguration :
    option Configuration -> option Configuration -> Completion Configuration;
  new_GithubRepository : string -> string -> string -> Completion Repository;
  new_GiteaRepository : string -> string -> string -> Completion Repository;
  build : BuilderArguments -> Completion (option string);
  writeOutput : string -> string -> option string -> Completion unit;
  notAConstructor : Error
}.

(** [new supportedPlatform[platform](token, baseUrl, repositoryPath)] for a
    [platform] that passed [isSupportedPlatform]. *)
Definition new_supportedPlatform (env : Environment)
    (platform token baseUrl repositoryPath : string)
    : Completion RepositoryUtils :=
  if String.eqb platform "github" then
    match new_GithubRepository env token baseUrl repositoryPath with
    | Return r => Return (PlatformRepository r)
    | Throw e => Throw e
    end
  else if String.eqb platform "gitea" then
    match new_GiteaRepository env token baseUrl repositoryPath with
    | Return r => Return (PlatformRepository r)
    | Throw e => Throw e
    end
  else if String.eqb platform "constructor" then Return (StringObject token)
  else Throw (notAConstructor env).

(** [core.getInput(name) || github.context.repo.owner] and its like. *)
Definition inputOrContext (env : Environment) (name : string)
    (field : string * string -> string) : Completion string :=
  match getInput env name with
  | EmptyString =>
      match context_repo env with
      | Return r => Return (field r)
      | Throw e => Throw e
      end
  | given => Return given
  end.

Local Open Scope action_scope.

(** [run], with a toolkit whose commands never fail; [runWith] below has
    the toolkit explicit. *)
Definition run (env : Environment) : Action unit :=
  issue (SetOutput "failed" "false") ;;
  issue (StartGroup "📘 Reading input values") ;;
  tryCatchAction
    (let platform := orElse (getInput env "platform") "github" in
     if negb (isSupportedPlatform platform) then
       issue (SetFailed ("The " ++ platform ++ " platform is not supported. "))
     else
       let inputPath := getInput env "path" in
       repositoryPath <- call (retrieveRepositoryPath env inputPath) ;;
       let configurationJson := getInput env "configurationJson" in
       configJson <-
         (if nonEmpty configurationJson then
            configJson <- call (parseConfiguration env configurationJson) ;;
            match configJson with
            | Some _ => issue (InfoLine "ℹ️ Retreived configuration via 'configurationJson'.")
            | None => done tt
            end ;;
            done configJson
          else done None) ;;
       let configurationFile := getInput env "configuration" in
       configFile <-
         call (resolveConfiguration env repositoryPath configurationFile) ;;
       match configFile with
       | Some _ => issue (InfoLine "ℹ️ Retreived configuration via 'configuration' (via file).")
       | None => done tt
       end ;;
       match configJson, configFile with
       | None, None => issue (InfoLine "ℹ️ No configuration provided. Using Defaults.")
       | _, _ => done tt
       end ;;
       configuration <- call (mergeConfiguration env configJson configFile) ;;
       let baseUrl := getInput env "baseUrl" in
       let token :=
         orElse (getInput env "token")
           (orElse (match env_GITHUB_TOKEN env with
                    | Some t => t
                    | None => EmptyString
                    end) EmptyString) in
       owner <- call (inputOrContext env "owner" fst) ;;
       repo <- call (inputOrContext env "repo" snd) ;;
       let fromTag := getInput env "fromTag" in
       let toTag := getInput env "toTag" in
       let includeOpen := String.eqb (getInput env "includeOpen") "true" in
       let ignorePreReleases :=
         String.eqb (getInput env "ignorePreReleases") "true" in
       let failOnError := String.eqb (getInput env "failOnError") "true" in
       let fetchViaCommits := String.eqb (getInput env "fetchViaCommits") "true" in
       let fetchReviewers := String.eqb (getInput env "fetchReviewers") "true" in
       let fetchReleaseInformation :=
         String.eqb (getInput env "fetchReleaseInformation") "true" in
       let fetchReviews := String.eqb (getInput env "fetchReviews") "true" in
       let commitMode := String.eqb (getInput env "commitMode") "true" in
       let exportCache := String.eqb (getInput env "exportCache") "true" in
       let exportOnly := String.eqb (getInput env "exportOnly") "true" in
       let cache := getInput env "cache" in
       repositoryUtils <-
         call (new_supportedPlatform env platform token baseUrl repositoryPath) ;;
       result <-
         call (build env
                 {| arg_baseUrl := baseUrl;
                    arg_repositoryUtils := repositoryUtils;
                    arg_repositoryPath := repositoryPath;
                    arg_owner := owner;
                    arg_repo := repo;
                    arg_fromTag := fromTag;
                    arg_toTag := toTag;
                    arg_includeOpen := includeOpen;
                    arg_failOnError := failOnError;
                    arg_ignorePreReleases := ignorePreReleases;
                    arg_fetchViaCommits := fetchViaCommits;
                    arg_fetchReviewers := fetchReviewers;
                    arg_fetchReleaseInformation := fetchReleaseInformation;
                    arg_fetchReviews := fetchReviews;
                    arg_commitMode := commitMode;
                    arg_exportCache := exportCache;
                    arg_exportOnly := exportOnly;
                    arg_cache := cache;
                    arg_configuration := configuration |}) ;;
       issue (SetOutput "changelog" (toCommandValue result)) ;;
       let outputFile := getInput env "outputFile" in
       if nonEmpty outputFile then
         issue (DebugLine "Enabled writing the changelog to disk") ;;
         call (writeOutput env repositoryPath outputFile result)
       else done tt)
    (fun error => issue (SetFailed (message error))).

(** [run] with the answers of the toolkit explicit: the same body, every
    command issued through [toolkit].  The first two commands stand before
    the [try], so an error of the toolkit there leaves [run]; inside the
    [try] it is caught like any other; in the handler it leaves [run]
    again. *)
Definition runWith (toolkit : Toolkit) (env : Environment) : Action unit :=
  issueWith toolkit (SetOutput "failed" "false") ;;
  issueWith toolkit (StartGroup "📘 Reading input values") ;;
  tryCatchAction
    (let platform := orElse (getInput env "platform") "github" in
     if negb (isSupportedPlatform platform) then
       issueWith toolkit (SetFailed ("The " ++ platform ++ " platform is not supported. "))
     else
       let inputPath := getInput env "path" in
       repositoryPath <- call (retrieveRepositoryPath env inputPath) ;;
       let configurationJson := getInput env "configurationJson" in
       configJson <-
         (if nonEmpty configurationJson then
            configJson <- call (parseConfiguration env configurationJson) ;;
            match configJson with
            | Some _ => issueWith toolkit (InfoLine "ℹ️ Retreived configuration via 'configurationJson'.")
            | None => done tt
            end ;;
            done configJson
          else done None) ;;
       let configurationFile := getInput env "configuration" in
       configFile <-
         call (resolveConfiguration env repositoryPath configurationFile) ;;
       match configFile with
       | Some _ => issueWith toolkit (InfoLine "ℹ️ Retreived configuration via 'configuration' (via file).")
       | None => done tt
       end ;;
       match configJson, configFile with
       | None, None => issueWith toolkit (InfoLine "ℹ️ No configuration provided. Using Defaults.")
       | _, _ => done tt
       end ;;
       configuration <- call (mergeConfiguration env configJson configFile) ;;
       let baseUrl := getInput env "baseUrl" in
       let token :=
         orElse (getInput env "token")
           (orElse (match env_GITHUB_TOKEN env with
                    | Some t => t
                    | None => EmptyString
                    end) EmptyString) in
       owner <- call (inputOrContext env "owner" fst) ;;
       repo <- call (inputOrContext env "repo" snd) ;;
       let fromTag := getInput env "fromTag" in
       let toTag := getInput env "toTag" in
       let includeOpen := String.eqb (getInput env "includeOpen") "true" in
       let ignorePreReleases :=
         String.eqb (getInput env "ignorePreReleases") "true" in
       let failOnError := String.eqb (getInput env "failOnError") "true" in
       let fetchViaCommits := String.eqb (getInput env "fetchViaCommits") "true" in
       let fetchReviewers := String.eqb (getInput env "fetchReviewers") "true" in
       let fetchReleaseInformation :=
         String.eqb (getInput env "fetchReleaseInformation") "true" in
       let fetchReviews := String.eqb (getInput env "fetchReviews") "true" in
       let commitMode := String.eqb (getInput env "commitMode") "true" in
       let exportCache := String.eqb (getInput env "exportCache") "true" in
       let exportOnly := String.eqb (getInput env "exportOnly") "true" in
       let cache := getInput env "cache" in
       repositoryUtils <-
         call (new_supportedPlatform env platform token baseUrl repositoryPath) ;;
       result <-
         call (build env
                 {| arg_baseUrl := baseUrl;
                    arg_repositoryUtils := repositoryUtils;
                    arg_repositoryPath := repositoryPath;
                    arg_owner := owner;
                    arg_repo := repo;
                    arg_fromTag := fromTag;
                    arg_toTag := toTag;
                    arg_includeOpen := includeOpen;
                    arg_failOnError := failOnError;
                    arg_ignorePreReleases := ignorePreReleases;
                    arg_fetchViaCommits := fetchViaCommits;
                    arg_fetchReviewers := fetchReviewers;
                    arg_fetchReleaseInformation := fetchReleaseInformation;
                    arg_fetchReviews := fetchReviews;
                    arg_commitMode := commitMode;
                    arg_exportCache := exportCache;
                    arg_exportOnly := exportOnly;
                    arg_cache := cache;
                    arg_configuration := configuration |}) ;;
       issueWith toolkit (SetOutput "changelog" (toCommandValue result)) ;;
       let outputFile := getInput env "outputFile" in
       if nonEmpty outputFile then
         issueWith toolkit (DebugLine "Enabled writing the changelog to disk") ;;
         call (writeOutput env repositoryPath outputFile result)
       else done tt)
    (fun error => issueWith toolkit (SetFailed (message error))).

(** The environment [env] with another workflow context, and with another
    function for writing the file. *)
Definition withContext (env : Environment)
    (context : Completion (string * string)) : Environment :=
  {| getInput := getInput env;
     env_GITHUB_TOKEN := env_GITHUB_TOKEN env;
     context_repo := context;
     retrieveRepositoryPath := retrieveRepositoryPath env;
     parseConfiguration := parseConfiguration env;
     resolveConfiguration := resolveConfiguration env;
     mergeConfiguration := mergeConfiguration env;
     new_GithubRepository := new_GithubRepository env;
     new_GiteaRepository := new_GiteaRepository env;
     build := build env;
     writeOutput := writeOutput env;
     notAConstructor := notAConstructor env |}.

Definition withWriteOutput (env : Environment)
    (write : string -> string -> option string -> Completion unit)
    : Environment :=
  {| getInput := getInput env;
     env_GITHUB_TOKEN := env_GITHUB_TOKEN env;
     context_repo := context_repo env;
     retrieveRepositoryPath := retrieveRepositoryPath env;
     parseConfiguration := parseConfiguration env;
     resolveConfiguration := resolveConfiguration env;
     mergeConfiguration := mergeConfiguration env;
     new_GithubRepository := new_GithubRepository env;
     new_GiteaRepository := new_GiteaRepository env;
     build := build env;
     writeOutput := write;
     notAConstructor := notAConstructor env |}.

End Runner.

Arguments PlatformRepository {Repository} r.
Arguments StringObject {Repository} s.

(** The messages of the failures that a run of commands signals, and the
    values that it gives to the output [name], both oldest first. *)
Fixpoint failures (commands : list Command) : list string :=
  match commands with
  | [] => []
  | SetFailed msg :: rest => msg :: failures rest
  | _ :: rest => failures rest
  end.

Fixpoint outputValues (name : string) (commands : list Command) : list string :=
  match commands with
  | [] => []
  | SetOutput n value :: rest =>
      if String.eqb n name then value :: outputValues name rest
      else outputValues name rest
  | _ :: rest => outputValues name rest
  end.

(** The text with which [run] turns down [platform]. *)
Definition notSupported (platform : string) : string :=
  "The " ++ platform ++ " platform is not supported. ".

(** An action that signals no failure, leaves the output [failed] alone and
    sets the output [changelog] at most [c] times. *)
Definition quiet {A : Type} (c : nat) (m : Action A) : Prop :=
  failures (fst m) = []
  /\ outputValues "failed" (fst m) = []
  /\ (List.length (outputValues "changelog" (fst m)) <= c)%nat.

(** An action that has set the output [changelog] whenever it returns. *)
Definition delivers {A : Type} (m : Action A) : Prop :=
  forall a, snd m = Return a -> outputValues "changelog" (fst m) <> [].

Section RunnerVocabulary.
Context {Configuration Repository : Type}.

(** The token that [run] hands to the platform: the input [token], else the
    variable [GITHUB_TOKEN] of the process, else the empty text. *)
Definition chosenToken (env : Environment Configuration Repository) : string :=
  orElse (getInput _ _ env "token")
    (orElse (match env_GITHUB_TOKEN _ _ env with
             | Some t => t
             | None => EmptyString
             end) EmptyString).

(** The input [name] reads exactly true. *)
Definition flag (env : Environment Configuration Repository) (name : string)
    : bool :=
  String.eqb (getInput _ _ env name) "true".

(** The arguments [args] of the builder are those that [run] draws from the
    inputs of [env]. *)
Definition builtFromInputs (env : Environment Configuration Repository)
    (args : BuilderArguments Configuration Repository) : Prop :=
  arg_baseUrl _ _ args = getInput _ _ env "baseUrl"
  /\ retrieveRepositoryPath _ _ env (getInput _ _ env "path")
     = Return (arg_repositoryPath _ _ args)
  /\ inputOrContext _ _ env "owner" fst = Return (arg_owner _ _ args)
  /\ inputOrContext _ _ env "repo" snd = Return (arg_repo _ _ args)
  /\ new_supportedPlatform _ _ env
       (orElse (getInput _ _ env "platform") "github") (chosenToken env)
       (getInput _ _ env "baseUrl") (arg_repositoryPath _ _ args)
     = Return (arg_repositoryUtils _ _ args)
  /\ arg_fromTag _ _ args = getInput _ _ env "fromTag"
  /\ arg_toTag _ _ args = getInput _ _ env "toTag"
  /\ arg_cache _ _ args = getInput _ _ env "cache"
  /\ arg_includeOpen _ _ args = flag env "includeOpen"
  /\ arg_failOnError _ _ args = flag env "failOnError"
  /\ arg_ignorePreReleases _ _ args = flag env "ignorePreReleases"
  /\ arg_fetchViaCommits _ _ args = flag env "fetchViaCommits"
  /\ arg_fetchReviewers _ _ args = flag env "fetchReviewers"
  /\ arg_fetchReleaseInformation _ _ args = flag env "fetchReleaseInformation"
  /\ arg_fetchReviews _ _ args = flag env "fetchReviews"
  /\ arg_commitMode _ _ args = flag env "commitMode"
  /\ arg_exportCache _ _ args = flag env "exportCache"
  /\ arg_exportOnly _ _ args = flag env "exportOnly"
  /\ exists configJson configFile,
       resolveConfiguration _ _ env (arg_repositoryPath _ _ args)
         (getInput _ _ env "configuration") = Return configFile
       /\ mergeConfiguration _ _ env configJson configFile
          = Return (arg_configuration _ _ args).
End RunnerVocabulary.

(** Inputs given as a table; an input that is not in it reads as the empty
    text. *)
Fixpoint inputsOf (table : list (string * string)) (name : string) : string :=
  match table with
  | [] => EmptyString
  | (n, value) :: rest => if String.eqb n name then value else inputsOf rest name
  end.

(** An environment in which every other module does its work: the builder
    answers with a line that names the repository. *)
Definition sampleEnvironment (table : list (string * string))
    : Environment unit string :=
  {| getInput := inputsOf table;
     env_GITHUB_TOKEN := Some "t0ken";
     context_repo := Return ("octo", "hello");
     retrieveRepositoryPath := fun path => Return ("/work/" ++ path);
     parseConfiguration := fun _ => Return (Some tt);
     resolveConfiguration := fun _ _ => Return None;
     mergeConfiguration := fun _ _ => Return tt;
     new_GithubRepository := fun _ _ _ => Return "github";
     new_GiteaRepository := fun _ _ _ => Return "gitea";
     build := fun args =>
                Return (Some ("Changes of " ++ arg_owner _ _ args ++ "/"
                              ++ arg_repo _ _ args));
     writeOutput := fun _ _ _ => Return tt;
     notAConstructor :=
       {| error_name := "TypeError"; status := None;
          message := "supportedPlatform[platform] is not a constructor" |} |}.



(* ================================================================== *)
(** ** Further sample pages *)

(** Four pages of five merged pull requests each, numbered 1 to 20 in the
    order of the pages and merged at the instants 101 to 120. *)
Definition pagesOfFive : list (list PullData) :=
  map (fun k =>
         map (fun i => samplePR (Z.of_nat i) (Some (100 + Z.of_nat i)))
             (seq (1 + 5 * k) 5))
      (seq 0 4).


(* ================================================================== *)
(** * Properties *)

(** ** Sorting *)

Section ArraySortFacts.
Context {A : Type}.
Variable compareFn : A -> A -> Z.

Lemma insertSorted_perm (x : A) (l : list A) :
  Permutation (insertSorted compareFn x l) (x :: l).
Proof.
  induction l as [|y l IH]; simpl.
  - apply Permutation_refl.
  - destruct (0 <? compareFn x y).
    + eapply perm_trans; [apply perm_skip, IH | apply perm_swap].
    + apply Permutation_refl.
Qed.

Lemma Array_sort_perm (l : list A) : Permutation (Array_sort compareFn l) l.
Proof.
  induction l as [|x l IH]; simpl.
  - constructor.
  - eapply perm_trans; [apply insertSorted_perm | now apply perm_skip].
Qed.

(** For a comparator that decides a transitive relation [R] on the
    elements that satisfy [P], the result is sorted by [R]. *)
Variable R : A -> A -> Prop.
Variable P : A -> Prop.
Hypothesis R_trans : forall x y z, R x y -> R y z -> R x z.
Hypothesis keeps : forall x y, P x -> P y -> (0 <? compareFn x y) = false -> R x y.
Hypothesis swaps : forall x y, P x -> P y -> (0 <? compareFn x y) = true -> R y x.

Lemma insertSorted_sorted (x : A) (l : list A) :
  P x -> Forall P l -> StronglySorted R l ->
  StronglySorted R (insertSorted compareFn x l).
Proof.
  intros Px Pl Hl. induction Hl as [|y l Hl IH Hy]; simpl.
  - constructor; constructor.
  - inversion Pl as [|? ? Py Pl']; subst.
    destruct (0 <? compareFn x y) eqn:E.
    + constructor; [now apply IH|].
      eapply Permutation_Forall;
        [apply Permutation_sym, insertSorted_perm|].
      constructor; [now apply swaps | exact Hy].
    + constructor; [now constructor|].
      assert (Rxy : R x y) by now apply keeps.
      constructor; [exact Rxy|].
      eapply Forall_impl; [|exact Hy]. intros z Ryz.
      now apply R_trans with y.
Qed.

Lemma Array_sort_sorted (l : list A) :
  Forall P l -> StronglySorted R (Array_sort compareFn l).
Proof.
  induction l as [|x l IH]; simpl; intros Pl.
  - constructor.
  - inversion Pl; subst. apply insertSorted_sorted; auto.
    eapply Permutation_Forall; [apply Permutation_sym, Array_sort_perm|].
    assumption.
Qed.
End ArraySortFacts.

Lemma StronglySorted_snoc {A : Type} (R : A -> A -> Prop) (l : list A) (x : A) :
  StronglySorted R l -> Forall (fun y => R y x) l ->
  StronglySorted R (l ++ [x]).
Proof.
  induction 1 as [|y l Hl IH Hy]; simpl; intros Hx.
  - constructor; constructor.
  - inversion Hx; subst. constructor; [now apply IH|].
    apply Forall_app. split; [assumption | now constructor].
Qed.

Section SortedFacts.
Context {A : Type}.
Variable R : A -> A -> Prop.

(** Read backwards, a sorted list is sorted by the converse relation. *)
Lemma StronglySorted_rev (l : list A) :
  StronglySorted R l -> StronglySorted (fun a b => R b a) (rev l).
Proof.
  induction 1 as [|y l Hl IH Hy]; simpl.
  - constructor.
  - apply StronglySorted_snoc; [exact IH|].
    apply Forall_rev. exact Hy.
Qed.

(** Two arrangements of the same elements, both sorted by a relation that
    is antisymmetric on them, are the same list. *)
Lemma sorted_arrangement_unique (l1 : list A) :
  forall l2,
    (forall a b, In a l1 -> In b l1 -> R a b -> R b a -> a = b) ->
    StronglySorted R l1 -> StronglySorted R l2 ->
    Permutation l1 l2 -> l1 = l2.
Proof.
  induction l1 as [|a l1 IH]; intros l2 anti S1 S2 Hp.
  - apply Permutation_nil in Hp. now subst.
  - destruct l2 as [|b l2].
    + apply Permutation_sym, Permutation_nil in Hp. discriminate.
    + inversion S1 as [|? ? S1' Ha]; subst.
      inversion S2 as [|? ? S2' Hb]; subst.
      assert (Eab : a = b).
      { assert (Ia : In a (b :: l2))
          by (eapply Permutation_in; [exact Hp | now left]).
        assert (Ib : In b (a :: l1))
          by (eapply Permutation_in;
              [apply Permutation_sym; exact Hp | now left]).
        destruct Ia as [Ia|Ia]; [now symmetry|].
        destruct Ib as [Ib|Ib]; [assumption|].
        rewrite Forall_forall in Ha, Hb.
        apply anti; [now left | now right | now apply Ha | now apply Hb]. }
      subst b. f_equal.
      apply IH; auto.
      * intros x y Hx Hy. apply anti; now right.
      * eapply Permutation_cons_inv; exact Hp.
Qed.
End SortedFacts.

Lemma NoDup_map_injective {A B : Type} (f : A -> B) (l : list A) :
  NoDup (map f l) ->
  forall a b, In a l -> In b l -> f a = f b -> a = b.
Proof.
  induction l as [|x l IH]; simpl; intros Hn a b Ha Hb E; [contradiction|].
  inversion Hn as [|? ? Hx Hn']; subst.
  destruct Ha as [Ha|Ha], Hb as [Hb|Hb]; subst; auto.
  - exfalso. apply Hx. rewrite E. now apply in_map.
  - exfalso. apply Hx. rewrite <- E. now apply in_map.
Qed.

Lemma Moment_le_trans (a b c : Moment.t) :
  Moment.le a b -> Moment.le b c -> Moment.le a c.
Proof.
  destruct a, b, c; simpl; try tauto. lia.
Qed.

Lemma Moment_le_antisym (a b : Moment.t) :
  Moment.le a b -> Moment.le b a -> a = b.
Proof.
  destruct a, b; simpl; try tauto. intros. f_equal. lia.
Qed.

Lemma compareAscending_keeps (x y : PullRequestInfo) :
  validMergeTime x -> validMergeTime y ->
  (0 <? compareAscending x y) = false -> mergedAt_le x y.
Proof.
  unfold validMergeTime, compareAscending, mergedAt_le.
  destruct (mergedAt x), (mergedAt y); simpl; try discriminate.
  intros _ _.
  destruct (ms <? ms0) eqn:E1; [lia|].
  destruct (ms0 <? ms) eqn:E2; [discriminate|]. lia.
Qed.

Lemma compareAscending_swaps (x y : PullRequestInfo) :
  validMergeTime x -> validMergeTime y ->
  (0 <? compareAscending x y) = true -> mergedAt_le y x.
Proof.
  unfold validMergeTime, compareAscending, mergedAt_le.
  destruct (mergedAt x), (mergedAt y); simpl; try discriminate.
  intros _ _.
  destruct (ms <? ms0) eqn:E1; [discriminate|].
  destruct (ms0 <? ms) eqn:E2; [lia | discriminate].
Qed.

Lemma compareDescending_keeps (x y : PullRequestInfo) :
  validMergeTime x -> validMergeTime y ->
  (0 <? compareDescending x y) = false -> mergedAt_le y x.
Proof.
  unfold validMergeTime, compareDescending, mergedAt_le.
  destruct (mergedAt x), (mergedAt y); simpl; try discriminate.
  intros _ _.
  destruct (ms0 <? ms) eqn:E1; [lia|].
  destruct (ms <? ms0) eqn:E2; [discriminate|]. lia.
Qed.

Lemma compareDescending_swaps (x y : PullRequestInfo) :
  validMergeTime x -> validMergeTime y ->
  (0 <? compareDescending x y) = true -> mergedAt_le x y.
Proof.
  unfold validMergeTime, compareDescending, mergedAt_le.
  destruct (mergedAt x), (mergedAt y); simpl; try discriminate.
  intros _ _.
  destruct (ms0 <? ms) eqn:E1; [discriminate|].
  destruct (ms <? ms0) eqn:E2; [lia | discriminate].
Qed.

Lemma mergedAt_le_trans (x y z : PullRequestInfo) :
  mergedAt_le x y -> mergedAt_le y z -> mergedAt_le x z.
Proof. apply Moment_le_trans. Qed.

(** The ascending sort of items with valid merge times is sorted. *)
Lemma sortPullRequests_ascending_sorted (items : list PullRequestInfo) :
  Forall validMergeTime items ->
  StronglySorted mergedAt_le (sortPullRequests items true).
Proof.
  intros Hv. unfold sortPullRequests.
  apply Array_sort_sorted with (P := validMergeTime); auto.
  - apply mergedAt_le_trans.
  - apply compareAscending_keeps.
  - apply compareAscending_swaps.
Qed.

Lemma sortPullRequests_perm (items : list PullRequestInfo) (ascending : bool) :
  Permutation (sortPullRequests items ascending) items.
Proof.
  unfold sortPullRequests. destruct ascending; apply Array_sort_perm.
Qed.

(** C3. For items whose merge times are valid and pairwise distinct, the
    ascending sort is a permutation of the items in which each merge time is
    no later than the next, and the descending sort is that sequence read
    backwards. *)
Theorem sortPullRequests_ordering (items : list PullRequestInfo) :
  distinctMergeTimes items ->
  Permutation (sortPullRequests items true) items
  /\ ascendingByMergeTime (sortPullRequests items true)
  /\ sortPullRequests items false = rev (sortPullRequests items true).
Proof.
  intros [Hv Hd].
  assert (Hasc := sortPullRequests_ascending_sorted items Hv).
  split; [apply sortPullRequests_perm|].
  split; [apply StronglySorted_Sorted; exact Hasc|].
  apply sorted_arrangement_unique with (R := fun a b => mergedAt_le b a).
  - intros a b Ia Ib Hab Hba.
    apply (NoDup_map_injective mergedAt items Hd).
    + eapply Permutation_in; [apply sortPullRequests_perm | exact Ia].
    + eapply Permutation_in; [apply sortPullRequests_perm | exact Ib].
    + now apply Moment_le_antisym.
  - unfold sortPullRequests.
    apply Array_sort_sorted with (P := validMergeTime); auto.
    + intros x y z Hxy Hyz. now apply mergedAt_le_trans with y.
    + apply compareDescending_keeps.
    + apply compareDescending_swaps.
  - apply StronglySorted_rev. exact Hasc.
  - eapply perm_trans; [apply sortPullRequests_perm|].
    eapply perm_trans; [apply Permutation_sym, sortPullRequests_perm|].
    apply Permutation_rev.
Qed.

(** ** The page loop of [getBetweenDates] *)

Section PageLoop.
Variable fromDate : Moment.t.
Variable maxPullRequests : Z.

(** One round of the loop on a delivered page with a first entry. *)
Lemma forAwait_round (p : PullData) (prs : list PullData)
    (rest : list (Completion (Response (list PullData))))
    (acc : list PullRequestInfo) (w : World) :
  let acc' := (acc ++ map toInfo (mergedEntries (p :: prs)))%list in
  forAwait fromDate maxPullRequests
    (Return {| data := p :: prs |} :: rest) acc w
  = if mergedBefore fromDate p
       || (maxPullRequests <=? Z.of_nat (List.length acc'))
    then (Return (sortPullRequests acc' true),
          if maxPullRequests <=? Z.of_nat (List.length acc')
          then {| log := log w ++ [Info ("Reached 'maxPullRequests' count "
                                         ++ toString maxPullRequests)];
                  requests := S (requests w) |}
          else afterRequest w)
    else forAwait fromDate maxPullRequests rest acc' (afterRequest w).
Proof.
  intros acc'. subst acc'. unfold mergedEntries, mergedBefore.
  cbn [forAwait]. unfold bind, await, get_merged_at, ret. cbn [data nth_error].
  destruct (truthy (merged_at p) && Moment.isAfter fromDate (moment (merged_at p))
            || (maxPullRequests <=? _)) eqn:E; [|reflexivity].
  destruct (maxPullRequests <=? _); reflexivity.
Qed.

(** On an empty page the round throws. *)
Lemma forAwait_empty_page
    (rest : list (Completion (Response (list PullData))))
    (acc : list PullRequestInfo) (w : World) :
  forAwait fromDate maxPullRequests (Return {| data := [] |} :: rest) acc w
  = (Throw (TypeError_undefined "merged_at"), afterRequest w).
Proof. reflexivity. Qed.

Lemma pushedFor_cons (prs : list PullData) (pages : list (list PullData)) :
  pushedFor (prs :: pages)
  = (map toInfo (mergedEntries prs) ++ pushedFor pages)%list.
Proof. reflexivity. Qed.

Lemma stopsAfterFrom_first (count : nat) (p : PullData)
    (prs : list PullData) (pages : list (list PullData)) :
  stopsAfterFrom count fromDate maxPullRequests ((p :: prs) :: pages) 0
  = mergedBefore fromDate p
    || (maxPullRequests
        <=? Z.of_nat (count + List.length (mergedEntries (p :: prs)))).
Proof.
  unfold stopsAfterFrom. cbn [nth_error firstn]. rewrite pushedFor_cons.
  cbn [pushedFor flat_map]. rewrite app_nil_r.
  now rewrite length_map.
Qed.

Lemma stopsAfterFrom_later (count : nat) (prs : list PullData)
    (pages : list (list PullData)) (k : nat) :
  stopsAfterFrom count fromDate maxPullRequests (prs :: pages) (S k)
  = stopsAfterFrom (count + List.length (mergedEntries prs))
      fromDate maxPullRequests pages k.
Proof.
  unfold stopsAfterFrom. cbn [nth_error].
  destruct (nth_error pages k) as [page|]; [|reflexivity].
  replace (firstn (S (S k)) (prs :: pages))
    with (prs :: firstn (S k) pages) by reflexivity.
  rewrite pushedFor_cons, length_app, length_map.
  now rewrite Nat.add_assoc.
Qed.

(** The run of the loop over pages that all arrive and are not empty: it
    returns, after [n] requests, the sorted items of the first [n] pages;
    none of the pages before the last one read meets the stop condition,
    and the last one read meets it unless the pages are used up. *)
Lemma forAwait_delivering (pages : list (list PullData)) :
  nonEmptyPages pages ->
  forall (acc : list PullRequestInfo) (w : World),
  exists n : nat,
    (n <= List.length pages)%nat
    /\ forAwait fromDate maxPullRequests (delivering pages) acc w
       = (Return (sortPullRequests (acc ++ pushedFor (firstn n pages)) true),
          snd (forAwait fromDate maxPullRequests (delivering pages) acc w))
    /\ requests (snd (forAwait fromDate maxPullRequests (delivering pages) acc w))
       = (requests w + n)%nat
    /\ (forall k, (S k < n)%nat ->
          stopsAfterFrom (List.length acc) fromDate maxPullRequests pages k = false)
    /\ ((n < List.length pages)%nat ->
          exists k, n = S k
            /\ stopsAfterFrom (List.length acc) fromDate maxPullRequests pages k = true)
    /\ (pages <> [] -> (0 < n)%nat).
Proof.
  induction pages as [|page rest IH]; intros Hne acc w.
  - exists 0%nat. cbn. rewrite app_nil_r.
    repeat split; try lia; try easy.
  - inversion Hne as [|? ? Hpage Hrest]; subst.
    destruct page as [|p prs]; [congruence|].
    cbn [delivering map]. fold (delivering rest).
    rewrite forAwait_round. cbv zeta.
    assert (Hlen : List.length (acc ++ map toInfo (mergedEntries (p :: prs)))
                   = (List.length acc + List.length (mergedEntries (p :: prs)))%nat)
      by now rewrite length_app, length_map.
    assert (Hstop0 :
              stopsAfterFrom (List.length acc) fromDate maxPullRequests
                ((p :: prs) :: rest) 0
              = mergedBefore fromDate p
                || (maxPullRequests
                    <=? Z.of_nat (List.length
                          (acc ++ map toInfo (mergedEntries (p :: prs)))))).
    { now rewrite stopsAfterFrom_first, Hlen. }
    destruct (mergedBefore fromDate p
              || (maxPullRequests
                  <=? Z.of_nat (List.length
                        (acc ++ map toInfo (mergedEntries (p :: prs))))))
      eqn:Estop.
    + exists 1%nat. cbn [firstn]. rewrite pushedFor_cons.
      cbn [pushedFor flat_map]. rewrite app_nil_r.
      cbn [fst snd List.length].
      repeat split; try lia.
      * destruct (maxPullRequests <=? _); cbn; lia.
      * intros _. exists 0%nat. split; [reflexivity | exact Hstop0].
    + destruct (IH Hrest (acc ++ map toInfo (mergedEntries (p :: prs)))%list
                  (afterRequest w)) as (n & Hn & Hres & Hreq & Hbefore & Hlast & Hpos).
      exists (S n). cbn [firstn List.length]. rewrite pushedFor_cons.
      rewrite app_assoc.
      repeat split; try lia.
      * exact Hres.
      * rewrite Hreq. cbn. lia.
      * intros [|k] Hk; [exact Hstop0|].
        rewrite stopsAfterFrom_later, <- Hlen. apply Hbefore. lia.
      * intros Hlt. destruct Hlast as (k & -> & Hk); [lia|].
        exists (S k). split; [reflexivity|].
        now rewrite stopsAfterFrom_later, <- Hlen.
Qed.
End PageLoop.

Section PageLoopResults.
Variable fromDate : Moment.t.
Variable maxPullRequests : Z.

(** Whatever the iterator answers, a run that returns has read a run of
    delivered pages and returns the sorted items of exactly these. *)
Lemma forAwait_returns
    (answers : list (Completion (Response (list PullData)))) :
  forall (acc l : list PullRequestInfo) (w w' : World),
    forAwait fromDate maxPullRequests answers acc w = (Return l, w') ->
    exists n : nat,
      (n <= List.length answers)%nat
      /\ requests w' = (requests w + n)%nat
      /\ l = sortPullRequests
               (acc ++ pushedFor (delivered (firstn n answers))) true.
Proof.
  induction answers as [|answer rest IH]; intros acc l w w' Hrun.
  - exists 0%nat. cbn in Hrun. injection Hrun as <- <-.
    cbn. rewrite app_nil_r. repeat split; lia.
  - destruct answer as [[prs]|e]; [|discriminate].
    destruct prs as [|p prs]; [discriminate|].
    rewrite forAwait_round in Hrun. cbv zeta in Hrun.
    destruct (mergedBefore fromDate p || _) eqn:Estop.
    + exists 1%nat. injection Hrun as <- <-.
      cbn [firstn delivered data]. rewrite pushedFor_cons.
      cbn [pushedFor flat_map]. rewrite app_nil_r.
      repeat split.
      * cbn. lia.
      * destruct (maxPullRequests <=? _); cbn; lia.
    + apply IH in Hrun. destruct Hrun as (n & Hn & Hreq & Hl).
      exists (S n). cbn [firstn delivered data List.length].
      rewrite pushedFor_cons, app_assoc.
      repeat split; [lia | cbn in Hreq; lia | exact Hl].
Qed.

(** Pages that do not meet the stop condition are passed over: the loop
    goes on with what follows them. *)
Lemma forAwait_passes (before : list (list PullData)) :
  nonEmptyPages before ->
  forall (rest : list (Completion (Response (list PullData))))
         (acc : list PullRequestInfo) (w : World),
    (forall k, (k < List.length before)%nat ->
       stopsAfterFrom (List.length acc) fromDate maxPullRequests before k = false) ->
    forAwait fromDate maxPullRequests (delivering before ++ rest) acc w
    = forAwait fromDate maxPullRequests rest (acc ++ pushedFor before)
        {| log := log w; requests := requests w + List.length before |}.
Proof.
  induction before as [|page before IH]; intros Hne rest acc w Hgo.
  - cbn. rewrite app_nil_r, Nat.add_0_r. now destruct w.
  - inversion Hne as [|? ? Hpage Hbefore]; subst.
    destruct page as [|p prs]; [congruence|].
    cbn [delivering map app]. fold (delivering before).
    rewrite forAwait_round. cbv zeta.
    assert (H0 := Hgo 0%nat ltac:(cbn; lia)).
    rewrite stopsAfterFrom_first in H0.
    rewrite length_app, length_map, H0.
    rewrite IH; auto.
    + rewrite pushedFor_cons, app_assoc. f_equal. cbn.
      f_equal. lia.
    + intros k Hk. rewrite length_app, length_map.
      rewrite <- stopsAfterFrom_later. apply Hgo. cbn. lia.
Qed.
End PageLoopResults.

Lemma in_pushedFor (r : PullRequestInfo) (pages : list (list PullData)) :
  In r (pushedFor pages) ->
  exists prs p t,
    In prs pages /\ In p prs /\ merged_at p = Some t /\ r = toInfo p.
Proof.
  unfold pushedFor. rewrite in_flat_map. intros (prs & Hprs & Hr).
  apply in_map_iff in Hr. destruct Hr as (p & <- & Hp).
  unfold mergedEntries in Hp. apply filter_In in Hp. destruct Hp as [Hp Ht].
  destruct (merged_at p) as [t|] eqn:E; [|discriminate].
  now exists prs, p, t.
Qed.

Lemma pushedFor_valid (pages : list (list PullData)) :
  Forall validMergeTime (pushedFor pages).
Proof.
  apply Forall_forall. intros r Hr.
  destruct (in_pushedFor r pages Hr) as (prs & p & t & _ & _ & Ht & ->).
  unfold validMergeTime. cbn. now rewrite Ht.
Qed.

Lemma delivered_delivering (pages : list (list PullData)) :
  delivered (delivering pages) = pages.
Proof.
  induction pages as [|prs pages IH]; cbn; [reflexivity|].
  fold (delivering pages). now rewrite IH.
Qed.

Lemma firstn_delivering (n : nat) (pages : list (list PullData)) :
  firstn n (delivering pages) = delivering (firstn n pages).
Proof. unfold delivering. now rewrite firstn_map. Qed.






Lemma mergedAfter_counted (fromDate : Moment.t) (prs : list PullData) :
  (List.length (filter (mergedAfter fromDate) prs)
   <= List.length (mergedEntries prs))%nat.
Proof.
  unfold mergedEntries, mergedAfter.
  induction prs as [|p prs IH]; cbn; [lia|].
  destruct (truthy (merged_at p)); cbn; [|exact IH].
  destruct (Moment.isBefore fromDate (moment (merged_at p))); cbn; lia.
Qed.

Lemma availableAfter_pushed (fromDate : Moment.t) (pages : list (list PullData)) :
  (availableAfter fromDate pages <= List.length (pushedFor pages))%nat.
Proof.
  unfold availableAfter.
  induction pages as [|prs pages IH]; cbn [List.concat]; [cbn; lia|].
  rewrite pushedFor_cons, filter_app, !length_app, length_map.
  pose proof (mergedAfter_counted fromDate prs). lia.
Qed.

Lemma pushedFor_app (before after : list (list PullData)) :
  pushedFor (before ++ after) = (pushedFor before ++ pushedFor after)%list.
Proof. unfold pushedFor. apply flat_map_app. Qed.

Lemma pushedFor_firstn_length (n : nat) (pages : list (list PullData)) :
  (List.length (pushedFor (firstn n pages)) <= List.length (pushedFor pages))%nat.
Proof.
  rewrite <- (firstn_skipn n pages) at 2.
  rewrite pushedFor_app, length_app. lia.
Qed.

(** The longer the run of pages, the more items it holds. *)
Lemma pushedFor_firstn_mono (n m : nat) (pages : list (list PullData)) :
  (n <= m)%nat ->
  (List.length (pushedFor (firstn n pages))
   <= List.length (pushedFor (firstn m pages)))%nat.
Proof.
  intros Hnm.
  replace (firstn n pages) with (firstn n (firstn m pages))
    by (rewrite firstn_firstn; f_equal; lia).
  apply pushedFor_firstn_length.
Qed.

Lemma firstn_snoc {A : Type} (l : list A) (k : nat) (x : A) :
  nth_error l k = Some x -> firstn (S k) l = (firstn k l ++ [x])%list.
Proof.
  revert k. induction l as [|y l IH]; intros [|k] Hk; try discriminate.
  - cbn in Hk. injection Hk as ->. reflexivity.
  - cbn [nth_error] in Hk. cbn [firstn app]. f_equal. now apply IH.
Qed.

(** A page that does not meet the stop condition leaves the count of the
    items collected up to it below the bound. *)
Lemma stopsAfterFrom_false_count (count : nat) (fromDate : Moment.t)
    (maxPullRequests : Z) (pages : list (list PullData)) (k : nat) :
  (k < List.length pages)%nat ->
  stopsAfterFrom count fromDate maxPullRequests pages k = false ->
  Z.of_nat (count + List.length (pushedFor (firstn (S k) pages)))
  < maxPullRequests.
Proof.
  intros Hk Hstop. unfold stopsAfterFrom in Hstop.
  destruct (nth_error pages k) as [prs|] eqn:E.
  - apply orb_false_elim in Hstop. destruct Hstop as [_ Hstop].
    now apply Z.leb_gt in Hstop.
  - apply nth_error_None in E. lia.
Qed.

(** C1, as the code has it.  When every page arrives non-empty, no page
    begins with an entry merged before [fromDate], and more entries merged
    after [fromDate] are available than [maxPullRequests], the call reads
    pages up to the first one at which the number of merged entries
    collected reaches [maxPullRequests], and returns all merged entries of
    the pages read, none cut off, in ascending order of merge time.  So the
    list numbers [maxPullRequests] or more; every shorter run of pages holds
    fewer than [maxPullRequests]; for a positive bound the list exceeds it
    by less than the last page read holds merged entries, and it numbers
    exactly [maxPullRequests] when some run of pages holds exactly that
    many. *)
Theorem getBetweenDates_at_least_max (octokit : Octokit) (owner repo : string)
    (fromDate toDate : Moment.t) (maxPullRequests : Z)
    (pages : list (list PullData)) :
  let call := getBetweenDates octokit owner repo fromDate toDate maxPullRequests in
  paginate_iterator octokit (pulls_list_endpoint_merge owner repo)
    = delivering pages ->
  nonEmptyPages pages ->
  noOldFirstEntry fromDate pages ->
  maxPullRequests < Z.of_nat (availableAfter fromDate pages) ->
  exists l,
    completion call = Return l
    /\ maxPullRequests <= Z.of_nat (List.length l)
    /\ ascendingByMergeTime l
    /\ Permutation l (pushedFor (firstn (requested call) pages))
    /\ (forall k, (S k < requested call)%nat ->
          Z.of_nat (List.length (pushedFor (firstn (S k) pages)))
          < maxPullRequests)
    /\ (0 < maxPullRequests ->
        exists lastPage,
          nth_error pages (requested call - 1) = Some lastPage
          /\ Z.of_nat (List.length l)
             < maxPullRequests + Z.of_nat (List.length (mergedEntries lastPage)))
    /\ (0 < maxPullRequests ->
        forall n,
          Z.of_nat (List.length (pushedFor (firstn n pages))) = maxPullRequests ->
          Z.of_nat (List.length l) = maxPullRequests).
Proof.
  intros call Hpages Hne Hold Havail.
  unfold completion, requested, call, getBetweenDates. cbv zeta. rewrite Hpages.
  destruct (forAwait_delivering fromDate maxPullRequests pages Hne [] initial)
    as (n & Hn & Hres & Hreq & Hbefore & Hlast & Hpos).
  rewrite Hres. cbn [fst snd]. rewrite Hreq. cbn [initial requests Nat.add app].
  eexists. split; [reflexivity|].
  assert (Hperm := sortPullRequests_perm (pushedFor (firstn n pages)) true).
  rewrite (Permutation_length Hperm).
  assert (Hreached :
            maxPullRequests <= Z.of_nat (List.length (pushedFor (firstn n pages)))).
  { destruct (Nat.lt_ge_cases n (List.length pages)) as [Hlt|Hge].
    + destruct (Hlast Hlt) as (k & -> & Hstop).
      unfold stopsAfterFrom in Hstop.
      destruct (nth_error pages k) as [prs|] eqn:Hk; [|discriminate].
      assert (Hfirst : match prs with
                       | firstPR :: _ => mergedBefore fromDate firstPR
                       | [] => false
                       end = false).
      { unfold noOldFirstEntry in Hold. rewrite Forall_forall in Hold.
        specialize (Hold prs (nth_error_In _ _ Hk)).
        destruct prs; auto. }
      rewrite Hfirst in Hstop. cbn in Hstop. apply Z.leb_le in Hstop.
      exact Hstop.
    + rewrite firstn_all2 by lia.
      pose proof (availableAfter_pushed fromDate pages). lia. }
  assert (Hshort : forall k, (S k < n)%nat ->
            Z.of_nat (List.length (pushedFor (firstn (S k) pages)))
            < maxPullRequests).
  { intros k Hk.
    apply (stopsAfterFrom_false_count 0 fromDate maxPullRequests pages k);
      [lia | now apply Hbefore]. }
  split; [exact Hreached|].
  split; [apply StronglySorted_Sorted, sortPullRequests_ascending_sorted,
            pushedFor_valid|].
  split; [exact Hperm|]. split; [exact Hshort|]. split.
  - intros Hmax.
    assert (Hn1 : (0 < n)%nat).
    { apply Hpos. intros ->. cbn in Havail. lia. }
    destruct (nth_error pages (n - 1)) as [lastPage|] eqn:Elast;
      [|apply nth_error_None in Elast; lia].
    exists lastPage. split; [reflexivity|].
    replace n with (S (n - 1)) at 1 by lia.
    rewrite (firstn_snoc _ _ _ Elast), pushedFor_app, length_app.
    cbn [pushedFor flat_map]. rewrite app_nil_r, length_map.
    destruct (n - 1)%nat as [|k] eqn:Ek.
    + cbn. lia.
    + specialize (Hshort k ltac:(lia)). lia.
  - intros Hmax m Hm.
    assert (Hle : (n <= m)%nat).
    { destruct (Nat.le_gt_cases n m) as [H|H]; [exact H|].
      destruct m as [|k]; [cbn in Hm; lia|].
      specialize (Hshort k H). lia. }
    pose proof (pushedFor_firstn_mono n m pages Hle). lia.
Qed.

(** C2, as the code has it.  Over pages that all arrive non-empty, the page
    after page [k] is requested exactly when page [k] does not meet the stop
    condition: its first entry was not merged before [fromDate], and fewer
    than [maxPullRequests] merged entries were collected up to it.  The
    first page, when there is one, is always requested. *)
Theorem getBetweenDates_stops_on_first_entry (octokit : Octokit)
    (owner repo : string) (fromDate toDate : Moment.t) (maxPullRequests : Z)
    (pages : list (list PullData)) :
  let call := getBetweenDates octokit owner repo fromDate toDate maxPullRequests in
  paginate_iterator octokit (pulls_list_endpoint_merge owner repo)
    = delivering pages ->
  nonEmptyPages pages ->
  (pages <> [] -> (0 < requested call)%nat)
  /\ forall k,
       (k < requested call)%nat -> (S k < List.length pages)%nat ->
       ((S k < requested call)%nat
        <-> stopsAfter fromDate maxPullRequests pages k = false).
Proof.
  intros call Hpages Hne.
  unfold requested, call, getBetweenDates. cbv zeta. rewrite Hpages.
  destruct (forAwait_delivering fromDate maxPullRequests pages Hne [] initial)
    as (n & Hn & _ & Hreq & Hbefore & Hlast & Hpos).
  rewrite Hreq. cbn [initial requests Nat.add].
  split; [exact Hpos|].
  intros k Hk Hnext. unfold stopsAfter. split.
  - apply Hbefore.
  - intros Hgo.
    destruct (Nat.lt_ge_cases (S k) n) as [Hlt|Hge]; [exact Hlt|].
    assert (En : n = S k) by lia. subst n.
    destruct (Hlast Hnext) as (k' & Ek & Hstop).
    injection Ek as <-. cbn [List.length] in Hstop. congruence.
Qed.

(** C1, counterexample.  With [maxPullRequests = 5] and twenty merged pull
    requests after [fromDate] on one page, the call returns all twenty, not
    five. *)
Lemma getBetweenDates_exceeds_max :
  let pages := [twentyMerged] in
  let call :=
    getBetweenDates (platformWith pages) "o" "r"
      (Moment.Valid 50) (Moment.Valid 1000) 5 in
  5 < Z.of_nat (availableAfter (Moment.Valid 50) pages)
  /\ (exists l, completion call = Return l /\ List.length l = 20%nat)
  /\ ~ (exists l,
          completion call = Return l
          /\ Z.of_nat (List.length l) = 5
          /\ ascendingByMergeTime l).
Proof.
  cbv zeta. split; [vm_compute; reflexivity|]. split.
  - eexists. split; [vm_compute; reflexivity | reflexivity].
  - intros (l & Hl & Hlen & _).
    vm_compute in Hl. injection Hl as <-. discriminate Hlen.
Qed.

(** C2, counterexample.  The last entry of the first page of [freshThenOld]
    was merged before [fromDate], and yet the second page is requested; the
    last entry of the first page of [oldThenFresh] was not, nor is the bound
    reached, and yet the second page is not requested. *)
Lemma getBetweenDates_ignores_last_entry :
  let fromDate := Moment.Valid 5 in
  let run pages :=
    getBetweenDates (platformWith pages) "o" "r" fromDate (Moment.Valid 1000) 100 in
  (specStopsAfter fromDate 100 freshThenOld 0 = true
   /\ requested (run freshThenOld) = 2%nat)
  /\ (specStopsAfter fromDate 100 oldThenFresh 0 = false
      /\ requested (run oldThenFresh) = 1%nat)
  /\ ~ (forall pages k,
          nonEmptyPages pages ->
          (k < requested (run pages))%nat -> (S k < List.length pages)%nat ->
          ((S k < requested (run pages))%nat
           <-> specStopsAfter fromDate 100 pages k = false)).
Proof.
  cbv zeta. split; [split; vm_compute; reflexivity|].
  split; [split; vm_compute; reflexivity|].
  intros H.
  assert (Hne : nonEmptyPages freshThenOld)
    by (repeat constructor; discriminate).
  specialize (H freshThenOld 0%nat Hne).
  assert (Hreq : requested
                   (getBetweenDates (platformWith freshThenOld) "o" "r"
                      (Moment.Valid 5) (Moment.Valid 1000) 100) = 2%nat)
    by (vm_compute; reflexivity).
  rewrite Hreq in H.
  assert (Hspec : specStopsAfter (Moment.Valid 5) 100 freshThenOld 0 = true)
    by (vm_compute; reflexivity).
  rewrite Hspec in H.
  destruct H as [H _]; [lia | cbn; lia |].
  specialize (H ltac:(lia)). discriminate H.
Qed.

(** C8. The result of [getBetweenDates] does not depend on [toDate]: two
    calls that differ in it only are the same computation; and the call
    returns items merged after [toDate]. *)
Theorem getBetweenDates_ignores_toDate :
  (forall (octokit : Octokit) (owner repo : string)
          (fromDate toDate toDate' : Moment.t) (maxPullRequests : Z) (w : World),
      getBetweenDates octokit owner repo fromDate toDate maxPullRequests w
      = getBetweenDates octokit owner repo fromDate toDate' maxPullRequests w)
  /\ (exists l p,
        completion (getBetweenDates (platformWith freshThenOld) "o" "r"
                      (Moment.Valid 5) (Moment.Valid 15) 100) = Return l
        /\ In p l
        /\ Moment.isAfter (mergedAt p) (Moment.Valid 15) = true).
Proof.
  split; [reflexivity|].
  eexists. exists (toInfo (samplePR 3 (Some 20))).
  split; [vm_compute; reflexivity|].
  split; [|reflexivity].
  right. right. left. vm_compute. reflexivity.
Qed.

(** C9. The loop reads the first entry of each page without a guard.  When
    every page arrives non-empty the call returns; when an empty page comes
    after non-empty pages none of which meets the stop condition, the read
    throws and the call returns nothing. *)
Theorem getBetweenDates_first_entry_unguarded (octokit : Octokit)
    (owner repo : string) (fromDate toDate : Moment.t) (maxPullRequests : Z)
    (pages : list (list PullData)) :
  let call := getBetweenDates octokit owner repo fromDate toDate maxPullRequests in
  paginate_iterator octokit (pulls_list_endpoint_merge owner repo)
    = delivering pages ->
  (nonEmptyPages pages -> exists l, completion call = Return l)
  /\ (forall before after,
        pages = (before ++ [] :: after)%list ->
        nonEmptyPages before ->
        (forall k, (k < List.length before)%nat ->
           stopsAfter fromDate maxPullRequests before k = false) ->
        completion call = Throw (TypeError_undefined "merged_at")).
Proof.
  intros call Hpages.
  unfold completion, call, getBetweenDates. cbv zeta. rewrite Hpages. split.
  - intros Hne.
    destruct (forAwait_delivering fromDate maxPullRequests pages Hne [] initial)
      as (n & _ & Hres & _).
    rewrite Hres. eexists. reflexivity.
  - intros before after -> Hne Hgo.
    unfold delivering. rewrite map_app. fold (delivering before).
    rewrite forAwait_passes; auto.
Qed.

(** ** [getSingle] *)

(** What [getSingle] logs when the request for the pull request throws. *)
Lemma getSingle_caught (octokit : Octokit) (owner repo : string) (prNumber : Z)
    (e : Error) (w : World) :
  pulls_get octokit owner repo prNumber = Throw e ->
  getSingle octokit owner repo prNumber w
  = (Return None,
     {| log := log w ++ [Warning ("Cannot find PR " ++ owner ++ "/" ++ repo
                                  ++ "#" ++ toString prNumber ++ " - "
                                  ++ message e)];
        requests := S (requests w) |}).
Proof.
  intros Hget. unfold getSingle, tryCatch, bind, await. rewrite Hget.
  reflexivity.
Qed.

(** C7. When the platform reports the pull request as not found, [getSingle]
    returns [null], writes one warning that names the pull request and the
    error, and raises nothing. *)
Theorem getSingle_soft_404 (octokit : Octokit) (owner repo : string)
    (prNumber : Z) (e : Error) :
  pulls_get octokit owner repo prNumber = Throw e ->
  status e = Some 404 ->
  completion (getSingle octokit owner repo prNumber) = Return None
  /\ logged (getSingle octokit owner repo prNumber)
     = [Warning ("Cannot find PR " ++ owner ++ "/" ++ repo ++ "#"
                 ++ toString prNumber ++ " - " ++ message e)].
Proof.
  intros Hget _. unfold completion, logged.
  rewrite (getSingle_caught _ _ _ _ e initial Hget). split; reflexivity.
Qed.

(** C10. [getSingle] never throws: in every world it returns a value; and
    whatever error the request throws, with any status or with none, the
    result is [null] and the error is logged as one warning. *)
Theorem getSingle_never_throws (octokit : Octokit) (owner repo : string)
    (prNumber : Z) (w : World) :
  (exists v, fst (getSingle octokit owner repo prNumber w) = Return v)
  /\ (forall e,
        pulls_get octokit owner repo prNumber = Throw e ->
        fst (getSingle octokit owner repo prNumber w) = Return None
        /\ log (snd (getSingle octokit owner repo prNumber w))
           = (log w ++ [Warning ("Cannot find PR " ++ owner ++ "/" ++ repo
                                 ++ "#" ++ toString prNumber ++ " - "
                                 ++ message e)])%list).
Proof.
  split.
  - destruct (pulls_get octokit owner repo prNumber) as [pr|e] eqn:Hget.
    + exists (Some (toInfo (data pr))).
      unfold getSingle, tryCatch, bind, await. rewrite Hget. reflexivity.
    + exists None. now rewrite (getSingle_caught _ _ _ _ e w Hget).
  - intros e Hget. rewrite (getSingle_caught _ _ _ _ e w Hget).
    split; reflexivity.
Qed.

(** ** Strings and the merge pattern *)

Lemma startsWith_spec (s p : string) :
  startsWith s p = true <-> exists rest, s = p ++ rest.
Proof.
  revert s. induction p as [|a p IH]; intros s; cbn.
  - split; [intros _; now exists s | reflexivity].
  - destruct s as [|b s].
    + split; [discriminate | intros [rest H]; discriminate].
    + rewrite andb_true_iff, Ascii.eqb_eq, IH. split.
      * intros [-> [rest ->]]. now exists rest.
      * intros [rest H]. injection H as -> ->. split; [reflexivity|].
        now exists rest.
Qed.

Lemma includes_unfold (s sub : string) :
  includes s sub
  = if startsWith s sub then true
    else match s with
         | EmptyString => false
         | String _ s' => includes s' sub
         end.
Proof. destruct s; reflexivity. Qed.

(** [includes] decides [contains]. *)
Lemma includes_spec (s sub : string) :
  includes s sub = true <-> contains s sub.
Proof.
  unfold contains. split.
  - induction s as [|c s IH]; rewrite includes_unfold;
      destruct (startsWith _ sub) eqn:E.
    + intros _. apply startsWith_spec in E. destruct E as [rest ->].
      now exists EmptyString, rest.
    + discriminate.
    + intros _. apply startsWith_spec in E. destruct E as [rest ->].
      now exists EmptyString, rest.
    + intros H. destruct (IH H) as (before & after & ->).
      now exists (String c before), after.
  - intros (before & after & ->).
    induction before as [|c before IH]; rewrite includes_unfold.
    + cbn [append].
      assert (E : startsWith (sub ++ after) sub = true)
        by (apply startsWith_spec; now exists after).
      now rewrite E.
    + cbn [append]. destruct (startsWith _ sub); [reflexivity | exact IH].
Qed.

Lemma matchedExclude_spec (s : string) (excludes : list string) :
  matchedExclude s excludes = true
  <-> exists e, In e excludes /\ contains s e.
Proof.
  induction excludes as [|e excludes IH]; cbn.
  - split; [discriminate | intros (e & [] & _)].
  - destruct (includes s e) eqn:E.
    + split; [|reflexivity]. intros _. exists e.
      split; [now left | now apply includes_spec].
    + rewrite IH. split.
      * intros (e' & He' & Hc). exists e'. split; [now right | exact Hc].
      * intros (e' & [<-|He'] & Hc).
        -- apply includes_spec in Hc. congruence.
        -- now exists e'.
Qed.

Lemma takeDigits_split (s : string) :
  exists after,
    s = takeDigits s ++ after
    /\ allDigits (takeDigits s) = true
    /\ noDigitAhead after = true.
Proof.
  induction s as [|c s (after & Hs & Hd & Ha)]; cbn.
  - now exists EmptyString.
  - destruct (isDigit c) eqn:E.
    + exists after. cbn. rewrite E, <- Hs. auto.
    + exists (String c s). cbn. now rewrite E.
Qed.

Lemma takeDigits_all (digits : string) :
  allDigits digits = true -> takeDigits digits = digits.
Proof.
  induction digits as [|c digits IH]; cbn; [reflexivity|].
  destruct (isDigit c); [|discriminate]. cbn. intros H. now rewrite IH.
Qed.

Lemma drop_prLiteral (rest : string) :
  drop (String.length prLiteral) (prLiteral ++ rest) = rest.
Proof. reflexivity. Qed.

(** An attempt at the beginning of [s] succeeds exactly when [s] begins with
    the literal text and a digit; it captures the digits found there. *)
Lemma matchHere_some (s : string) (m : RegExpMatchArray) :
  matchHere s = Some m ->
  exists after,
    s = prLiteral ++ match_1 m ++ after
    /\ match_0 m = prLiteral ++ match_1 m
    /\ match_1 m <> EmptyString
    /\ allDigits (match_1 m) = true
    /\ noDigitAhead after = true.
Proof.
  unfold matchHere. destruct (startsWith s prLiteral) eqn:E; [|discriminate].
  apply startsWith_spec in E. destruct E as [rest ->].
  rewrite drop_prLiteral.
  destruct (takeDigits_split rest) as (after & Hrest & Hd & Ha).
  destruct (takeDigits rest) as [|c digits] eqn:Et; [discriminate|].
  intros H. injection H as <-. cbn [match_0 match_1].
  exists after. rewrite Hrest at 1. repeat split; auto. discriminate.
Qed.

Lemma matchHere_complete (d : ascii) (after : string) :
  isDigit d = true -> matchHere (prLiteral ++ String d after) <> None.
Proof.
  intros Hd. unfold matchHere.
  assert (E : startsWith (prLiteral ++ String d after) prLiteral = true)
    by (apply startsWith_spec; now eexists).
  rewrite E, drop_prLiteral. cbn [takeDigits]. rewrite Hd. discriminate.
Qed.

(** The search answers with the leftmost place where the literal text is
    followed by a digit, and with the whole number that stands there. *)
Lemma match_prRegex_some (s : string) (m : RegExpMatchArray) :
  match_prRegex s = Some m ->
  mergesPullRequest s (match_1 m) /\ match_0 m = prLiteral ++ match_1 m.
Proof.
  induction s as [|c s IH].
  - cbn. discriminate.
  - cbn [match_prRegex].
    destruct (matchHere (String c s)) as [m'|] eqn:E.
    + intros H. injection H as ->.
      destruct (matchHere_some _ _ E) as (after & Hs & H0 & Hne & Hd & Ha).
      split; [|exact H0].
      exists EmptyString, after. repeat split; auto.
      intros. cbn. lia.
    + intros H. destruct (IH H) as [(before & after & Hs & Hne & Hd & Ha & Hleft) H0].
      split; [|exact H0].
      exists (String c before), after. cbn [append]. rewrite <- Hs.
      repeat split; auto.
      intros before' d after' Hs' Hdig.
      destruct before' as [|c' before'].
      * exfalso. cbn [append] in Hs'. rewrite Hs' in E.
        now apply (matchHere_complete d after').
      * cbn [append] in Hs'. injection Hs' as _ Hs'.
        specialize (Hleft before' d after' Hs' Hdig). cbn. lia.
Qed.

(** The search fails exactly when the literal text is nowhere followed by a
    digit. *)
Lemma match_prRegex_none (s : string) :
  match_prRegex s = None ->
  forall before d after,
    s = before ++ prLiteral ++ String d after -> isDigit d = false.
Proof.
  induction s as [|c s IH]; intros Hnone before d after Hs.
  - destruct before; discriminate.
  - cbn [match_prRegex] in Hnone.
    destruct (matchHere (String c s)) eqn:E; [discriminate|].
    destruct before as [|c' before].
    + cbn [append] in Hs. rewrite Hs in E.
      destruct (isDigit d) eqn:Hd; [|reflexivity].
      exfalso. now apply (matchHere_complete d after).
    + cbn [append] in Hs. injection Hs as _ Hs.
      now apply (IH Hnone before d after).
Qed.

Lemma parseInt_digits (digits : string) :
  digits <> EmptyString -> allDigits digits = true ->
  Number.parseInt digits = Number.ofInteger (Number.decimal 0 digits).
Proof.
  intros Hne Hd. unfold Number.parseInt. rewrite (takeDigits_all _ Hd).
  destruct digits; [congruence | reflexivity].
Qed.

Lemma ofInteger_exact (n : N) :
  (n < 2 ^ 53)%N -> Number.ofInteger n = Number.Finite n.
Proof.
  intros H. unfold Number.ofInteger.
  apply N.ltb_lt in H. now rewrite H.
Qed.

(** ** [filterCommits] *)

Lemma filterCommits_app (before after : list CommitInfo)
    (excludeMergeBranches : option (list string)) :
  filterCommits (before ++ after) excludeMergeBranches
  = (filterCommits before excludeMergeBranches
     ++ filterCommits after excludeMergeBranches)%list.
Proof.
  induction before as [|commit before IH]; cbn [filterCommits app];
    [reflexivity|].
  destruct (match excludeMergeBranches with
            | Some excludes => matchedExclude (summary commit) excludes
            | None => false
            end); [exact IH|].
  destruct (match_prRegex (summary commit)); [|exact IH].
  cbn [app]. now rewrite IH.
Qed.

(** Where a kept commit comes from. *)
Lemma in_filterCommits (commits : list CommitInfo)
    (excludeMergeBranches : option (list string)) (c : CommitInfo) :
  In c (filterCommits commits excludeMergeBranches) ->
  exists c0 m,
    In c0 commits
    /\ match excludeMergeBranches with
       | Some excludes => matchedExclude (summary c0) excludes
       | None => false
       end = false
    /\ match_prRegex (summary c0) = Some m
    /\ c = set_prNumber c0 (Number.parseInt (match_1 m)).
Proof.
  induction commits as [|commit commits IH]; cbn [filterCommits];
    [intros []|].
  destruct (match excludeMergeBranches with
            | Some excludes => matchedExclude (summary commit) excludes
            | None => false
            end) eqn:Ex.
  - intros H. destruct (IH H) as (c0 & m & Hin & Hrest).
    exists c0, m. split; [now right | exact Hrest].
  - destruct (match_prRegex (summary commit)) as [m|] eqn:Em.
    + intros [<-|H].
      * exists commit, m. repeat split; auto. now left.
      * destruct (IH H) as (c0 & m' & Hin & Hrest).
        exists c0, m'. split; [now right | exact Hrest].
    + intros H. destruct (IH H) as (c0 & m' & Hin & Hrest).
      exists c0, m'. split; [now right | exact Hrest].
Qed.

(** C4. A commit whose summary contains one of the exclude texts is absent
    from the result of [filterCommits], whatever else its summary matches:
    the result is the one obtained without the commit, and no kept commit
    carries its summary. *)
Theorem filterCommits_exclusion (before after : list CommitInfo)
    (commit : CommitInfo) (excludes : list string) :
  (exists e, In e excludes /\ contains (summary commit) e) ->
  filterCommits (before ++ commit :: after) (Some excludes)
  = filterCommits (before ++ after) (Some excludes)
  /\ forall c,
       In c (filterCommits (before ++ commit :: after) (Some excludes)) ->
       summary c <> summary commit.
Proof.
  intros Hex. apply matchedExclude_spec in Hex. split.
  - rewrite !filterCommits_app. f_equal.
    cbn [filterCommits]. now rewrite Hex.
  - intros c Hc.
    destruct (in_filterCommits _ _ _ Hc) as (c0 & m & _ & Hno & _ & ->).
    cbn [set_prNumber summary]. intros Heq. rewrite Heq in Hno. congruence.
Qed.

(** C5. A commit is in the result of [filterCommits] only if its summary
    reads "Merge pull request #" and a number somewhere, not necessarily
    over the whole line; the kept commit is the given one with [prNumber]
    set to the number that the decimal digits found there denote, as a
    JavaScript number, which is that very integer below [2^53].  A commit
    whose summary has no such place is dropped from the result. *)
Theorem filterCommits_keeps_merges (commits : list CommitInfo)
    (excludeMergeBranches : option (list string)) :
  (forall c,
     In c (filterCommits commits excludeMergeBranches) ->
     exists c0 digits,
       In c0 commits
       /\ mergesPullRequest (summary c0) digits
       /\ c = set_prNumber c0 (Number.ofInteger (Number.decimal 0 digits))
       /\ ((Number.decimal 0 digits < 2 ^ 53)%N ->
           prNumber c = Some (Number.Finite (Number.decimal 0 digits))))
  /\ (forall before c0 after,
        commits = (before ++ c0 :: after)%list ->
        (forall l d r,
           summary c0 = l ++ prLiteral ++ String d r -> isDigit d = false) ->
        filterCommits commits excludeMergeBranches
        = filterCommits (before ++ after) excludeMergeBranches).
Proof.
  split.
  - intros c Hc.
    destruct (in_filterCommits _ _ _ Hc) as (c0 & m & Hin & _ & Hm & ->).
    destruct (match_prRegex_some _ _ Hm) as [Hmerge _].
    exists c0, (match_1 m). split; [exact Hin|]. split; [exact Hmerge|].
    destruct Hmerge as (l & r & _ & Hne & Hd & _).
    rewrite (parseInt_digits _ Hne Hd). split; [reflexivity|].
    intros Hsmall. cbn [set_prNumber prNumber].
    now rewrite (ofInteger_exact _ Hsmall).
  - intros before c0 after -> Hnone.
    rewrite !filterCommits_app. f_equal. cbn [filterCommits].
    destruct (match_prRegex (summary c0)) as [m|] eqn:Em.
    + exfalso.
      destruct (match_prRegex_some _ _ Em) as [(l & r & Hs & Hne & Hd & _) _].
      destruct (match_1 m) as [|d digits]; [congruence|].
      cbn [allDigits] in Hd. apply andb_true_iff in Hd. destruct Hd as [Hd _].
      cbn [append] in Hs. rewrite (Hnone _ _ _ Hs) in Hd. discriminate.
    + now destruct (match excludeMergeBranches with
                    | Some excludes => matchedExclude (summary c0) excludes
                    | None => false
                    end).
Qed.

(** C5, counterexample.  The summary names the number 9007199254740993,
    which no JavaScript number represents: the kept commit carries
    9007199254740992. *)
Lemma filterCommits_prNumber_rounded :
  let commit :=
    {| sha := "d4"; summary := "Merge pull request #9007199254740993 from x/y";
       commit_author := "dee"; prNumber := None |} in
  mergesPullRequest (summary commit) "9007199254740993"
  /\ Number.decimal 0 "9007199254740993" = 9007199254740993%N
  /\ filterCommits [commit] None
     = [ set_prNumber commit (Number.Finite 9007199254740992) ]
  /\ ~ (forall c, In c (filterCommits [commit] None) ->
          prNumber c = Some (Number.Finite 9007199254740993)).
Proof.
  cbv zeta. split.
  - exists EmptyString, " from x/y". repeat split; try reflexivity.
    + discriminate.
    + intros. cbn. lia.
  - split; [reflexivity|]. split; [vm_compute; reflexivity|].
    intros H. specialize (H _ (or_introl eq_refl)).
    vm_compute in H. discriminate H.
Qed.

(** ** The statements at sample inputs *)

Example filterCommits_sample :
  filterCommits
    [ featureMerge;
      {| sha := "b2"; summary := "Fix typo"; commit_author := "bob";
         prNumber := None |};
      releaseMerge ]
    (Some ["release/"])
  = [ set_prNumber featureMerge (Number.Finite 12) ].
Proof. reflexivity. Qed.

Example ofInteger_rounds :
  Number.ofInteger 9007199254740993 = Number.Finite 9007199254740992
  /\ Number.ofInteger 9007199254740995 = Number.Finite 9007199254740996
  /\ Number.ofInteger (2 ^ 1024 - 2 ^ 970) = Number.Infinity
  /\ Number.ofInteger (2 ^ 1024 - 2 ^ 970 - 1)
     = Number.Finite (2 ^ 1024 - 2 ^ 971).
Proof. vm_compute. repeat split. Qed.

Example sortPullRequests_sample :
  map number (sortPullRequests sampleItems true) = [2; 3; 1]
  /\ map number (sortPullRequests sampleItems false) = [1; 3; 2].
Proof. split; reflexivity. Qed.

Example getBetweenDates_sample :
  let call :=
    getBetweenDates (platformWith freshThenOld) "o" "r"
      (Moment.Valid 5) (Moment.Valid 15) 2 in
  completion call
  = Return (map toInfo [ samplePR 2 (Some 1); samplePR 1 (Some 10) ])
  /\ logged call = [ Info "Reached 'maxPullRequests' count 2" ]
  /\ requested call = 1%nat.
Proof. cbv zeta. repeat split; vm_compute; reflexivity. Qed.

Lemma sortPullRequests_ordering_witness :
  distinctMergeTimes sampleItems
  /\ Permutation (sortPullRequests sampleItems true) sampleItems
  /\ ascendingByMergeTime (sortPullRequests sampleItems true)
  /\ sortPullRequests sampleItems false = rev (sortPullRequests sampleItems true).
Proof.
  assert (H : distinctMergeTimes sampleItems).
  { split.
    - repeat constructor.
    - repeat constructor; cbn; intuition discriminate. }
  split; [exact H | exact (sortPullRequests_ordering sampleItems H)].
Defined.


Lemma getBetweenDates_at_least_max_witness :
  let call :=
    getBetweenDates (platformWith pagesOfFive) "o" "r"
      (Moment.Valid 50) (Moment.Valid 1000) 7 in
  (nonEmptyPages pagesOfFive
   /\ noOldFirstEntry (Moment.Valid 50) pagesOfFive
   /\ 7 < Z.of_nat (availableAfter (Moment.Valid 50) pagesOfFive)
   /\ requested call = 2%nat)
  /\ exists l,
       completion call = Return l
       /\ 7 <= Z.of_nat (List.length l)
       /\ ascendingByMergeTime l
       /\ Permutation l (pushedFor (firstn (requested call) pagesOfFive))
       /\ (forall k, (S k < requested call)%nat ->
             Z.of_nat (List.length (pushedFor (firstn (S k) pagesOfFive))) < 7)
       /\ (0 < 7 ->
           exists lastPage,
             nth_error pagesOfFive (requested call - 1) = Some lastPage
             /\ Z.of_nat (List.length l)
                < 7 + Z.of_nat (List.length (mergedEntries lastPage)))
       /\ (0 < 7 ->
           forall n,
             Z.of_nat (List.length (pushedFor (firstn n pagesOfFive))) = 7 ->
             Z.of_nat (List.length l) = 7).
Proof.
  cbv zeta.
  assert (Hne : nonEmptyPages pagesOfFive)
    by (repeat constructor; discriminate).
  assert (Hold : noOldFirstEntry (Moment.Valid 50) pagesOfFive)
    by (repeat constructor).
  assert (Hav : 7 < Z.of_nat (availableAfter (Moment.Valid 50) pagesOfFive))
    by (vm_compute; reflexivity).
  split; [repeat split; auto; vm_compute; reflexivity|].
  exact (getBetweenDates_at_least_max (platformWith pagesOfFive) "o" "r"
           (Moment.Valid 50) (Moment.Valid 1000) 7 pagesOfFive
           eq_refl Hne Hold Hav).
Defined.

Lemma getBetweenDates_stops_on_first_entry_witness :
  let call :=
    getBetweenDates (platformWith freshThenOld) "o" "r"
      (Moment.Valid 5) (Moment.Valid 1000) 100 in
  nonEmptyPages freshThenOld
  /\ (freshThenOld <> [] -> (0 < requested call)%nat)
  /\ forall k,
       (k < requested call)%nat -> (S k < List.length freshThenOld)%nat ->
       ((S k < requested call)%nat
        <-> stopsAfter (Moment.Valid 5) 100 freshThenOld k = false).
Proof.
  cbv zeta.
  assert (Hne : nonEmptyPages freshThenOld)
    by (repeat constructor; discriminate).
  split; [exact Hne|].
  exact (getBetweenDates_stops_on_first_entry (platformWith freshThenOld)
           "o" "r" (Moment.Valid 5) (Moment.Valid 1000) 100 freshThenOld
           eq_refl Hne).
Defined.

Lemma getBetweenDates_first_entry_unguarded_witness :
  let call pages :=
    getBetweenDates (platformWith pages) "o" "r"
      (Moment.Valid 5) (Moment.Valid 1000) 100 in
  completion (call thenEmptyPage) = Throw (TypeError_undefined "merged_at")
  /\ exists l, completion (call freshThenOld) = Return l.
Proof.
  cbv zeta. split.
  - refine (proj2 (getBetweenDates_first_entry_unguarded
                     (platformWith thenEmptyPage) "o" "r"
                     (Moment.Valid 5) (Moment.Valid 1000) 100 thenEmptyPage
                     eq_refl)
                  [ [ samplePR 1 (Some 10) ] ] [] eq_refl _ _).
    + repeat constructor; discriminate.
    + intros [|k] Hk; [vm_compute; reflexivity | cbn in Hk; lia].
  - refine (proj1 (getBetweenDates_first_entry_unguarded
                     (platformWith freshThenOld) "o" "r"
                     (Moment.Valid 5) (Moment.Valid 1000) 100 freshThenOld
                     eq_refl) _).
    repeat constructor; discriminate.
Defined.

Lemma getSingle_soft_404_witness :
  pulls_get (platformWith []) "o" "r" 7 = Throw notFound
  /\ status notFound = Some 404
  /\ completion (getSingle (platformWith []) "o" "r" 7) = Return None
  /\ logged (getSingle (platformWith []) "o" "r" 7)
     = [ Warning "Cannot find PR o/r#7 - Not Found" ].
Proof.
  split; [reflexivity|]. split; [reflexivity|].
  exact (getSingle_soft_404 (platformWith []) "o" "r" 7 notFound
           eq_refl eq_refl).
Defined.

Lemma getSingle_never_throws_witness :
  (exists v, fst (getSingle (platformWith []) "o" "r" 7 initial) = Return v)
  /\ fst (getSingle (platformWith []) "o" "r" 7 initial) = Return None
  /\ log (snd (getSingle (platformWith []) "o" "r" 7 initial))
     = [ Warning "Cannot find PR o/r#7 - Not Found" ].
Proof.
  split.
  - exact (proj1 (getSingle_never_throws (platformWith []) "o" "r" 7 initial)).
  - exact (proj2 (getSingle_never_throws (platformWith []) "o" "r" 7 initial)
             notFound eq_refl).
Defined.

Lemma filterCommits_exclusion_witness :
  (exists e, In e ["release/"] /\ contains (summary releaseMerge) e)
  /\ match_prRegex (summary releaseMerge) <> None
  /\ filterCommits ([featureMerge] ++ releaseMerge :: [featureMerge])
       (Some ["release/"])
     = filterCommits ([featureMerge] ++ [featureMerge]) (Some ["release/"])
  /\ forall c,
       In c (filterCommits ([featureMerge] ++ releaseMerge :: [featureMerge])
               (Some ["release/"])) ->
       summary c <> summary releaseMerge.
Proof.
  assert (H : exists e, In e ["release/"] /\ contains (summary releaseMerge) e).
  { exists "release/". split; [now left|].
    exists "Merge pull request #7 from ", "1.0". reflexivity. }
  split; [exact H|]. split; [discriminate|].
  exact (filterCommits_exclusion [featureMerge] [featureMerge] releaseMerge
           ["release/"] H).
Defined.

Lemma filterCommits_keeps_merges_witness :
  In (set_prNumber featureMerge (Number.Finite 12))
    (filterCommits [featureMerge; releaseMerge] (Some ["release/"]))
  /\ exists c0 digits,
       In c0 [featureMerge; releaseMerge]
       /\ mergesPullRequest (summary c0) digits
       /\ set_prNumber featureMerge (Number.Finite 12)
          = set_prNumber c0 (Number.ofInteger (Number.decimal 0 digits))
       /\ ((Number.decimal 0 digits < 2 ^ 53)%N ->
           prNumber (set_prNumber featureMerge (Number.Finite 12))
           = Some (Number.Finite (Number.decimal 0 digits))).
Proof.
  assert (H : In (set_prNumber featureMerge (Number.Finite 12))
                (filterCommits [featureMerge; releaseMerge] (Some ["release/"])))
    by (left; reflexivity).
  split; [exact H|].
  exact (proj1 (filterCommits_keeps_merges [featureMerge; releaseMerge]
                  (Some ["release/"])) _ H).
Defined.

(* ================================================================== *)
(** * Further properties *)

(** ** Sorting with equal merge times *)

Lemma compareDescending_le_trans (x y z : PullRequestInfo) :
  mergedAt_le y x -> mergedAt_le z y -> mergedAt_le z x.
Proof. intros Hxy Hyz. now apply mergedAt_le_trans with y. Qed.

(** X1. For items whose merge times are instants, equal ones allowed, the
    result of [sortPullRequests] holds the same items, in ascending order of
    merge time for [ascending = true] and in descending order otherwise. *)
Theorem sortPullRequests_sorted_both (items : list PullRequestInfo) :
  Forall validMergeTime items ->
  (Permutation (sortPullRequests items true) items
   /\ ascendingByMergeTime (sortPullRequests items true))
  /\ (Permutation (sortPullRequests items false) items
      /\ descendingByMergeTime (sortPullRequests items false)).
Proof.
  intros Hv. split; (split; [apply sortPullRequests_perm|]).
  - apply StronglySorted_Sorted.
    unfold sortPullRequests.
    apply Array_sort_sorted with (P := validMergeTime); auto.
    + apply mergedAt_le_trans.
    + apply compareAscending_keeps.
    + apply compareAscending_swaps.
  - apply StronglySorted_Sorted. unfold sortPullRequests.
    apply Array_sort_sorted with (P := validMergeTime); auto.
    + apply compareDescending_le_trans.
    + apply compareDescending_keeps.
    + apply compareDescending_swaps.
Qed.

Lemma sortPullRequests_sorted_both_witness :
  let items := map toInfo [ samplePR 1 (Some 30); samplePR 2 (Some 10);
                            samplePR 3 (Some 30) ] in
  Forall validMergeTime items
  /\ (Permutation (sortPullRequests items true) items
      /\ ascendingByMergeTime (sortPullRequests items true))
  /\ (Permutation (sortPullRequests items false) items
      /\ descendingByMergeTime (sortPullRequests items false)).
Proof.
  cbv zeta.
  assert (H : Forall validMergeTime
                (map toInfo [ samplePR 1 (Some 30); samplePR 2 (Some 10);
                              samplePR 3 (Some 30) ]))
    by (repeat constructor).
  split; [exact H | exact (sortPullRequests_sorted_both _ H)].
Defined.

Section StableSort.
Context {A : Type}.
Variable compareFn : A -> A -> Z.

(** A list that is sorted by a relation on which the comparator never asks
    for a swap is left as it is. *)
Lemma Array_sort_fixed (R : A -> A -> Prop) (l : list A) :
  (forall x y, R x y -> (0 <? compareFn x y) = false) ->
  StronglySorted R l -> Array_sort compareFn l = l.
Proof.
  intros Hkeep. induction 1 as [|x l Hl IH Hx]; cbn [Array_sort];
    [reflexivity|].
  rewrite IH. destruct l as [|y l]; [reflexivity|].
  cbn [insertSorted]. inversion Hx as [|? ? Hxy _]; subst.
  now rewrite (Hkeep x y Hxy).
Qed.

(** Insertion moves an element only past elements that [keep] tells apart
    from it, so a selection that never holds both keeps its order. *)
Lemma insertSorted_selection (select : A -> bool) (x : A) (l : list A) :
  (forall a b, (0 <? compareFn a b) = true ->
     select a = true -> select b = true -> False) ->
  filter select (insertSorted compareFn x l) = filter select (x :: l).
Proof.
  intros Hapart. induction l as [|y l IH]; [reflexivity|].
  cbn [insertSorted]. destruct (0 <? compareFn x y) eqn:E; [|reflexivity].
  cbn [filter] in *. rewrite IH.
  destruct (select x) eqn:Sx, (select y) eqn:Sy; try reflexivity.
  exfalso. exact (Hapart x y E Sx Sy).
Qed.

Lemma Array_sort_selection (select : A -> bool) (l : list A) :
  (forall a b, (0 <? compareFn a b) = true ->
     select a = true -> select b = true -> False) ->
  filter select (Array_sort compareFn l) = filter select l.
Proof.
  intros Hapart. induction l as [|x l IH]; [reflexivity|].
  cbn [Array_sort]. rewrite insertSorted_selection by exact Hapart.
  cbn [filter]. now rewrite IH.
Qed.
End StableSort.

Lemma Moment_eqb_eq (a b : Moment.t) : Moment_eqb a b = true <-> a = b.
Proof.
  destruct a as [x|], b as [y|]; cbn; try (split; congruence).
  rewrite Z.eqb_eq. split; congruence.
Qed.

Lemma mergedAt_le_keeps_ascending (x y : PullRequestInfo) :
  mergedAt_le x y -> (0 <? compareAscending x y) = false.
Proof.
  unfold mergedAt_le, compareAscending.
  destruct (mergedAt x) as [a|], (mergedAt y) as [b|]; cbn; try tauto.
  intros Hle. destruct (a <? b) eqn:E1; [reflexivity|].
  destruct (b <? a) eqn:E2; [lia | reflexivity].
Qed.

Lemma mergedAt_ge_keeps_descending (x y : PullRequestInfo) :
  mergedAt_le y x -> (0 <? compareDescending x y) = false.
Proof.
  unfold mergedAt_le, compareDescending.
  destruct (mergedAt x) as [a|], (mergedAt y) as [b|]; cbn; try tauto.
  intros Hle. destruct (b <? a) eqn:E1; [reflexivity|].
  destruct (a <? b) eqn:E2; [lia | reflexivity].
Qed.

(** X2. Sorting is idempotent on items whose merge times are instants:
    sorting the result again, in the same direction, changes nothing. *)
Theorem sortPullRequests_idempotent (items : list PullRequestInfo)
    (ascending : bool) :
  Forall validMergeTime items ->
  sortPullRequests (sortPullRequests items ascending) ascending
  = sortPullRequests items ascending.
Proof.
  intros Hv. destruct ascending; unfold sortPullRequests.
  - apply Array_sort_fixed with (R := mergedAt_le).
    + apply mergedAt_le_keeps_ascending.
    + apply (sortPullRequests_ascending_sorted items Hv).
  - apply Array_sort_fixed with (R := fun a b => mergedAt_le b a).
    + apply mergedAt_ge_keeps_descending.
    + apply Array_sort_sorted with (P := validMergeTime); auto.
      * apply compareDescending_le_trans.
      * apply compareDescending_keeps.
      * apply compareDescending_swaps.
Qed.

Lemma sortPullRequests_idempotent_witness :
  Forall validMergeTime sampleItems
  /\ sortPullRequests (sortPullRequests sampleItems false) false
     = sortPullRequests sampleItems false.
Proof.
  assert (H : Forall validMergeTime sampleItems) by (repeat constructor).
  split; [exact H | exact (sortPullRequests_idempotent sampleItems false H)].
Defined.

Lemma compareAscending_apart (t : Moment.t) (a b : PullRequestInfo) :
  (0 <? compareAscending a b) = true ->
  Moment_eqb (mergedAt a) t = true -> Moment_eqb (mergedAt b) t = true -> False.
Proof.
  rewrite !Moment_eqb_eq. unfold compareAscending. intros Hc Ha Hb.
  rewrite Ha, Hb in Hc. destruct t as [x|]; cbn in Hc; [|discriminate].
  rewrite Z.ltb_irrefl in Hc. discriminate.
Qed.

Lemma compareDescending_apart (t : Moment.t) (a b : PullRequestInfo) :
  (0 <? compareDescending a b) = true ->
  Moment_eqb (mergedAt a) t = true -> Moment_eqb (mergedAt b) t = true -> False.
Proof.
  rewrite !Moment_eqb_eq. unfold compareDescending. intros Hc Ha Hb.
  rewrite Ha, Hb in Hc. destruct t as [x|]; cbn in Hc; [|discriminate].
  rewrite Z.ltb_irrefl in Hc. discriminate.
Qed.

(** X3. The sort is stable in both directions: among items whose merge
    times are instants, those merged at the same instant come out in the
    order in which they went in. *)
Theorem sortPullRequests_stable (items : list PullRequestInfo)
    (ascending : bool) (t : Moment.t) :
  Forall validMergeTime items ->
  mergedAtTime t (sortPullRequests items ascending) = mergedAtTime t items.
Proof.
  intros _. unfold mergedAtTime, sortPullRequests. destruct ascending.
  - apply Array_sort_selection. apply compareAscending_apart.
  - apply Array_sort_selection. apply compareDescending_apart.
Qed.

Lemma sortPullRequests_stable_witness :
  let items := map toInfo [ samplePR 1 (Some 30); samplePR 2 (Some 10);
                            samplePR 3 (Some 30) ] in
  Forall validMergeTime items
  /\ map number (sortPullRequests items false) = [1; 3; 2]
  /\ mergedAtTime (Moment.Valid 30) (sortPullRequests items false)
     = mergedAtTime (Moment.Valid 30) items.
Proof.
  cbv zeta.
  assert (H : Forall validMergeTime
                (map toInfo [ samplePR 1 (Some 30); samplePR 2 (Some 10);
                              samplePR 3 (Some 30) ]))
    by (repeat constructor).
  split; [exact H|]. split; [reflexivity|].
  exact (sortPullRequests_stable _ false (Moment.Valid 30) H).
Defined.

(** ** Requests, log and failures of [getBetweenDates] *)

Section PageLoopEffects.
Variable fromDate : Moment.t.
Variable maxPullRequests : Z.

(** A request that is refused ends the loop with the error of the request. *)
Lemma forAwait_refused (e : Error)
    (rest : list (Completion (Response (list PullData))))
    (acc : list PullRequestInfo) (w : World) :
  forAwait fromDate maxPullRequests (Throw e :: rest) acc w
  = (Throw e, afterRequest w).
Proof. reflexivity. Qed.

(** The loop sends at least one request when the iterator has an answer, and
    never more requests than the iterator has answers. *)
Lemma forAwait_requests
    (answers : list (Completion (Response (list PullData)))) :
  forall (acc : list PullRequestInfo) (w : World),
    (requests (snd (forAwait fromDate maxPullRequests answers acc w))
     <= requests w + List.length answers)%nat
    /\ (answers <> [] ->
        (requests w
         < requests (snd (forAwait fromDate maxPullRequests answers acc w)))%nat).
Proof.
  induction answers as [|answer rest IH]; intros acc w.
  - cbn. split; [lia | congruence].
  - destruct answer as [[prs]|e].
    + destruct prs as [|p prs].
      * rewrite forAwait_empty_page. cbn. split; [lia | intros _; lia].
      * rewrite forAwait_round. cbv zeta.
        destruct (mergedBefore fromDate p || _).
        -- cbn [snd List.length].
           destruct (maxPullRequests <=? _); cbn; split; try lia; intros _; lia.
        -- destruct (IH (acc ++ map toInfo (mergedEntries (p :: prs)))%list
                       (afterRequest w)) as [Hle _].
           cbn [requests afterRequest List.length] in *.
           split; [lia | intros _].
           destruct rest as [|answer rest].
           ++ cbn. lia.
           ++ destruct (IH (acc ++ map toInfo (mergedEntries (p :: prs)))%list
                          (afterRequest w)) as [_ Hlt].
              specialize (Hlt ltac:(discriminate)).
              cbn [requests afterRequest] in Hlt. lia.
    + rewrite forAwait_refused. cbn. split; [lia | intros _; lia].
Qed.

(** A run that sends a request and returns has written the line about the
    bound exactly when the returned list numbers [maxPullRequests] or more,
    and nothing else. *)
Lemma forAwait_log
    (answers : list (Completion (Response (list PullData)))) :
  forall (acc l : list PullRequestInfo) (w w' : World),
    answers <> [] ->
    forAwait fromDate maxPullRequests answers acc w = (Return l, w') ->
    log w' = (log w ++ if maxPullRequests <=? Z.of_nat (List.length l)
                       then [reachedMax maxPullRequests] else [])%list.
Proof.
  induction answers as [|answer rest IH]; intros acc l w w' Hne Hrun;
    [congruence|].
  destruct answer as [[prs]|e]; [|discriminate].
  destruct prs as [|p prs]; [discriminate|].
  rewrite forAwait_round in Hrun. cbv zeta in Hrun.
  set (acc' := (acc ++ map toInfo (mergedEntries (p :: prs)))%list) in *.
  assert (Hlen : List.length (Array_sort compareAscending acc')
                 = List.length acc')
    by (apply Permutation_length, Array_sort_perm).
  destruct (maxPullRequests <=? Z.of_nat (List.length acc')) eqn:Emax.
  - rewrite orb_true_r in Hrun. injection Hrun as <- <-.
    rewrite Hlen, Emax. reflexivity.
  - rewrite orb_false_r in Hrun.
    destruct (mergedBefore fromDate p).
    + injection Hrun as <- <-. rewrite Hlen, Emax. cbn. now rewrite app_nil_r.
    + destruct rest as [|answer rest].
      * cbn [forAwait] in Hrun. unfold ret in Hrun. injection Hrun as <- <-.
        rewrite Hlen, Emax. cbn. now rewrite app_nil_r.
      * apply IH in Hrun; [exact Hrun | discriminate].
Qed.
End PageLoopEffects.

(** X4. Whenever [getBetweenDates] returns, the list is in ascending order
    of merge time and every item in it has an instant as its merge time,
    whatever the pages hold and however the loop ended. *)
Theorem getBetweenDates_always_sorted (octokit : Octokit) (owner repo : string)
    (fromDate toDate : Moment.t) (maxPullRequests : Z)
    (l : list PullRequestInfo) :
  completion (getBetweenDates octokit owner repo fromDate toDate maxPullRequests)
  = Return l ->
  ascendingByMergeTime l /\ Forall validMergeTime l.
Proof.
  unfold completion, getBetweenDates. cbv zeta. intros Hret.
  destruct (forAwait _ _ _ _ _) as [c w'] eqn:Hrun. cbn in Hret. subst c.
  apply forAwait_returns in Hrun. destruct Hrun as (n & _ & _ & ->).
  cbn [app]. split.
  - apply StronglySorted_Sorted, sortPullRequests_ascending_sorted.
    apply pushedFor_valid.
  - eapply Permutation_Forall;
      [apply Permutation_sym, sortPullRequests_perm | apply pushedFor_valid].
Qed.

Lemma getBetweenDates_always_sorted_witness :
  let call :=
    getBetweenDates (platformWith oldThenFresh) "o" "r"
      (Moment.Valid 5) (Moment.Valid 15) 100 in
  let l := map toInfo [ samplePR 2 (Some 1); samplePR 1 (Some 10) ] in
  completion call = Return l
  /\ ascendingByMergeTime l /\ Forall validMergeTime l.
Proof.
  cbv zeta.
  assert (H : completion
                (getBetweenDates (platformWith oldThenFresh) "o" "r"
                   (Moment.Valid 5) (Moment.Valid 15) 100)
              = Return (map toInfo [ samplePR 2 (Some 1); samplePR 1 (Some 10) ]))
    by (vm_compute; reflexivity).
  split; [exact H|].
  exact (getBetweenDates_always_sorted (platformWith oldThenFresh) "o" "r"
           (Moment.Valid 5) (Moment.Valid 15) 100 _ H).
Defined.

(** X5. Once the platform answers the first page request, as the iterator
    of the client always lets it, [getBetweenDates] sends at least one
    request and at most one per page that the platform has, whether it
    returns or throws. *)
Theorem getBetweenDates_request_bound (octokit : Octokit) (owner repo : string)
    (fromDate toDate : Moment.t) (maxPullRequests : Z) :
  let call := getBetweenDates octokit owner repo fromDate toDate maxPullRequests in
  let answers := paginate_iterator octokit (pulls_list_endpoint_merge owner repo) in
  answers <> [] ->
  (1 <= requested call <= List.length answers)%nat.
Proof.
  cbv zeta. unfold requested, getBetweenDates. cbv zeta. intros Hsome.
  destruct (forAwait_requests fromDate maxPullRequests
              (paginate_iterator octokit (pulls_list_endpoint_merge owner repo))
              [] initial) as [Hle Hlt].
  specialize (Hlt Hsome). cbn [initial requests Nat.add] in *. lia.
Qed.

Lemma getBetweenDates_request_bound_witness :
  let call :=
    getBetweenDates (platformWith pagesOfFive) "o" "r"
      (Moment.Valid 50) (Moment.Valid 1000) 7 in
  requested call = 2%nat
  /\ (1 <= requested call <= List.length (delivering pagesOfFive))%nat.
Proof.
  cbv zeta. split; [vm_compute; reflexivity|].
  refine (getBetweenDates_request_bound (platformWith pagesOfFive) "o" "r"
            (Moment.Valid 50) (Moment.Valid 1000) 7 _).
  cbn. discriminate.
Defined.

(** X6. When [getBetweenDates] returns after at least one page, its log is
    the single line about the bound if the returned list numbers
    [maxPullRequests] or more, and empty otherwise: a stop on the date alone
    is silent. *)
Theorem getBetweenDates_log (octokit : Octokit) (owner repo : string)
    (fromDate toDate : Moment.t) (maxPullRequests : Z)
    (l : list PullRequestInfo) :
  let call := getBetweenDates octokit owner repo fromDate toDate maxPullRequests in
  paginate_iterator octokit (pulls_list_endpoint_merge owner repo) <> [] ->
  completion call = Return l ->
  logged call = if maxPullRequests <=? Z.of_nat (List.length l)
                then [reachedMax maxPullRequests] else [].
Proof.
  cbv zeta. unfold completion, logged, getBetweenDates. cbv zeta.
  intros Hne Hret.
  destruct (forAwait _ _ _ _ _) as [c w'] eqn:Hrun. cbn in Hret. subst c.
  cbn [snd]. now rewrite (forAwait_log _ _ _ _ _ _ _ Hne Hrun).
Qed.

Lemma getBetweenDates_log_witness :
  let call :=
    getBetweenDates (platformWith oldThenFresh) "o" "r"
      (Moment.Valid 5) (Moment.Valid 15) 100 in
  let l := map toInfo [ samplePR 2 (Some 1); samplePR 1 (Some 10) ] in
  completion call = Return l /\ logged call = [].
Proof.
  cbv zeta.
  assert (H : completion
                (getBetweenDates (platformWith oldThenFresh) "o" "r"
                   (Moment.Valid 5) (Moment.Valid 15) 100)
              = Return (map toInfo [ samplePR 2 (Some 1); samplePR 1 (Some 10) ]))
    by (vm_compute; reflexivity).
  split; [exact H|].
  exact (getBetweenDates_log (platformWith oldThenFresh) "o" "r"
           (Moment.Valid 5) (Moment.Valid 15) 100 _
           ltac:(discriminate) H).
Defined.

(** X7. A refused page request is not handled: when it comes after
    non-empty pages none of which meets the stop condition, the call ends
    with the error of that request, having sent one request per page and
    this one, and having logged nothing; the items collected are lost. *)
Theorem getBetweenDates_propagates_failure (octokit : Octokit)
    (owner repo : string) (fromDate toDate : Moment.t) (maxPullRequests : Z)
    (before : list (list PullData)) (e : Error)
    (rest : list (Completion (Response (list PullData)))) :
  let call := getBetweenDates octokit owner repo fromDate toDate maxPullRequests in
  paginate_iterator octokit (pulls_list_endpoint_merge owner repo)
    = (delivering before ++ Throw e :: rest)%list ->
  nonEmptyPages before ->
  (forall k, (k < List.length before)%nat ->
     stopsAfter fromDate maxPullRequests before k = false) ->
  completion call = Throw e
  /\ requested call = S (List.length before)
  /\ logged call = [].
Proof.
  cbv zeta. unfold completion, requested, logged, getBetweenDates. cbv zeta.
  intros -> Hne Hgo.
  rewrite forAwait_passes by assumption.
  rewrite forAwait_refused. cbn. repeat split; lia.
Qed.

(** X9. When the first page alone holds [maxPullRequests] merged entries or
    more, as every non-empty page does for a bound of zero or less, the call
    sends one request only and returns the merged entries of that page,
    sorted, with the line about the bound in the log. *)
Theorem getBetweenDates_first_page_suffices (octokit : Octokit)
    (owner repo : string) (fromDate toDate : Moment.t) (maxPullRequests : Z)
    (p : PullData) (prs : list PullData)
    (rest : list (Completion (Response (list PullData)))) :
  let call := getBetweenDates octokit owner repo fromDate toDate maxPullRequests in
  paginate_iterator octokit (pulls_list_endpoint_merge owner repo)
    = Return {| data := p :: prs |} :: rest ->
  maxPullRequests <= Z.of_nat (List.length (mergedEntries (p :: prs))) ->
  completion call
  = Return (sortPullRequests (map toInfo (mergedEntries (p :: prs))) true)
  /\ requested call = 1%nat
  /\ logged call = [reachedMax maxPullRequests].
Proof.
  cbv zeta. unfold completion, requested, logged, getBetweenDates. cbv zeta.
  intros -> Hmax. rewrite forAwait_round. cbv zeta. cbn [app].
  rewrite length_map. apply Z.leb_le in Hmax. rewrite Hmax, orb_true_r.
  repeat split.
Qed.

(** X10. When every page arrives non-empty, no page begins with an entry
    merged before [fromDate] and all pages together hold fewer merged
    entries than [maxPullRequests], the call reads every page: it sends one
    request per page, returns the merged entries of all pages, and logs
    nothing. *)
Theorem getBetweenDates_reads_all (octokit : Octokit) (owner repo : string)
    (fromDate toDate : Moment.t) (maxPullRequests : Z)
    (pages : list (list PullData)) :
  let call := getBetweenDates octokit owner repo fromDate toDate maxPullRequests in
  paginate_iterator octokit (pulls_list_endpoint_merge owner repo)
    = delivering pages ->
  nonEmptyPages pages ->
  noOldFirstEntry fromDate pages ->
  Z.of_nat (List.length (pushedFor pages)) < maxPullRequests ->
  completion call = Return (sortPullRequests (pushedFor pages) true)
  /\ requested call = List.length pages
  /\ logged call = [].
Proof.
  cbv zeta. intros Hpages Hne Hold Hfew.
  unfold completion, requested, logged, getBetweenDates. cbv zeta.
  rewrite Hpages.
  destruct (forAwait_delivering fromDate maxPullRequests pages Hne [] initial)
    as (n & Hn & Hres & Hreq & _ & Hlast & _).
  assert (En : n = List.length pages).
  { destruct (Nat.lt_ge_cases n (List.length pages)) as [Hlt|Hge]; [|lia].
    exfalso. destruct (Hlast Hlt) as (k & -> & Hstop).
    unfold stopsAfterFrom in Hstop.
    destruct (nth_error pages k) as [prs|] eqn:Hk; [|discriminate].
    assert (Hfirst : match prs with
                     | firstPR :: _ => mergedBefore fromDate firstPR
                     | [] => false
                     end = false).
    { unfold noOldFirstEntry in Hold. rewrite Forall_forall in Hold.
      specialize (Hold prs (nth_error_In _ _ Hk)). destruct prs; auto. }
    rewrite Hfirst in Hstop. cbn [orb] in Hstop. apply Z.leb_le in Hstop.
    pose proof (pushedFor_firstn_length (S k) pages) as Hmono.
    cbn [List.length Nat.add] in Hstop. lia. }
  subst n. rewrite firstn_all in Hres. cbn [app] in Hres.
  split; [now rewrite Hres|]. split; [rewrite Hreq; reflexivity|].
  destruct pages as [|page pages]; [reflexivity|].
  destruct (forAwait _ _ _ _ _) as [c w'] eqn:Hrun.
  apply (f_equal fst) in Hres. cbn [fst snd] in *. subst c.
  assert (Hsome : delivering (page :: pages) <> []) by (cbn; discriminate).
  rewrite (forAwait_log _ _ _ _ _ _ _ Hsome Hrun).
  assert (Hl : List.length (sortPullRequests (pushedFor (page :: pages)) true)
               = List.length (pushedFor (page :: pages)))
    by (apply Permutation_length, sortPullRequests_perm).
  rewrite Hl.
  destruct (maxPullRequests <=? _) eqn:E; [apply Z.leb_le in E; lia|].
  reflexivity.
Qed.

Lemma getBetweenDates_propagates_failure_witness :
  let call :=
    getBetweenDates (platformAnswering pageThenRefusal) "o" "r"
      (Moment.Valid 5) (Moment.Valid 1000) 100 in
  completion call = Throw serverError
  /\ requested call = 2%nat
  /\ logged call = [].
Proof.
  cbv zeta.
  refine (getBetweenDates_propagates_failure
            (platformAnswering pageThenRefusal) "o" "r"
            (Moment.Valid 5) (Moment.Valid 1000) 100
            [ [ samplePR 1 (Some 10) ] ] serverError [] eq_refl _ _).
  - repeat constructor; discriminate.
  - intros [|k] Hk; [vm_compute; reflexivity | cbn in Hk; lia].
Defined.

Lemma getBetweenDates_first_page_suffices_witness :
  let call :=
    getBetweenDates (platformWith freshThenOld) "o" "r"
      (Moment.Valid 5) (Moment.Valid 1000) 0 in
  completion call
  = Return (sortPullRequests
              (map toInfo (mergedEntries [ samplePR 1 (Some 10);
                                           samplePR 2 (Some 1) ])) true)
  /\ requested call = 1%nat
  /\ logged call = [reachedMax 0].
Proof.
  cbv zeta.
  refine (getBetweenDates_first_page_suffices (platformWith freshThenOld)
            "o" "r" (Moment.Valid 5) (Moment.Valid 1000) 0
            (samplePR 1 (Some 10)) [ samplePR 2 (Some 1) ]
            (delivering [ [ samplePR 3 (Some 20) ] ]) eq_refl _).
  vm_compute. discriminate.
Defined.

Lemma getBetweenDates_reads_all_witness :
  let call :=
    getBetweenDates (platformWith freshThenOld) "o" "r"
      (Moment.Valid 0) (Moment.Valid 1000) 100 in
  completion call = Return (sortPullRequests (pushedFor freshThenOld) true)
  /\ requested call = 2%nat
  /\ logged call = [].
Proof.
  cbv zeta.
  refine (getBetweenDates_reads_all (platformWith freshThenOld) "o" "r"
            (Moment.Valid 0) (Moment.Valid 1000) 100 freshThenOld
            eq_refl _ _ _).
  - repeat constructor; discriminate.
  - repeat constructor.
  - vm_compute. reflexivity.
Defined.

(** ** Requests and log of [getSingle] *)

(** X11. [getSingle] sends exactly one request, whatever the answer.
    Whenever it returns a pull request rather than [null], the request had
    succeeded, the item is the one built from the delivered data, merged or
    not, and the log is left as it was; it returns [null] exactly when it
    added a line, one warning, to the log. *)
Theorem getSingle_one_request (octokit : Octokit) (owner repo : string)
    (prNumber : Z) (w : World) :
  let run := getSingle octokit owner repo prNumber w in
  requests (snd run) = S (requests w)
  /\ (forall info,
        fst run = Return (Some info) ->
        log (snd run) = log w
        /\ exists pr,
             pulls_get octokit owner repo prNumber = Return pr
             /\ info = toInfo (data pr)
             /\ (validMergeTime info <-> merged_at (data pr) <> None))
  /\ (fst run = Return None
      <-> exists msg, log (snd run) = (log w ++ [Warning msg])%list)
  /\ (fst run = Return None \/ log (snd run) = log w).
Proof.
  cbv zeta.
  destruct (pulls_get octokit owner repo prNumber) as [pr|e] eqn:Hget.
  - assert (Hrun : getSingle octokit owner repo prNumber w
                   = (Return (Some (toInfo (data pr))), afterRequest w)).
    { unfold getSingle, tryCatch, bind, await. rewrite Hget. reflexivity. }
    rewrite Hrun. cbn [fst snd afterRequest requests log].
    split; [reflexivity|]. split; [|split].
    + intros info Hinfo. injection Hinfo as <-.
      split; [reflexivity|]. exists pr. split; [reflexivity|].
      split; [reflexivity|].
      unfold validMergeTime. cbn.
      destruct (merged_at (data pr)); cbn; split; congruence.
    + split; [discriminate|]. intros [msg Hlog].
      apply (f_equal (@List.length LogEntry)) in Hlog.
      rewrite length_app in Hlog. cbn in Hlog. lia.
    + now right.
  - rewrite (getSingle_caught octokit owner repo prNumber e w Hget).
    cbn [fst snd requests log].
    split; [reflexivity|]. split; [intros info Hinfo; discriminate|].
    split; [|now left].
    split; [intros _; eexists; reflexivity | reflexivity].
Qed.

Lemma getSingle_one_request_witness :
  let pr := samplePR 7 None in
  let run := getSingle (platformKnowing 7 pr) "o" "r" 7 initial in
  fst run = Return (Some (toInfo pr))
  /\ log (snd run) = []
  /\ exists pr',
       pulls_get (platformKnowing 7 pr) "o" "r" 7 = Return pr'
       /\ toInfo pr = toInfo (data pr')
       /\ (validMergeTime (toInfo pr) <-> merged_at (data pr') <> None).
Proof.
  cbv zeta. split; [reflexivity|].
  exact (proj1 (proj2 (getSingle_one_request
                         (platformKnowing 7 (samplePR 7 None)) "o" "r" 7 initial))
           (toInfo (samplePR 7 None)) eq_refl).
Defined.

(** ** The pattern search *)

Lemma takeDigits_app (digits after : string) :
  allDigits digits = true -> noDigitAhead after = true ->
  takeDigits (digits ++ after) = digits.
Proof.
  intros Hd Ha. induction digits as [|c digits IH]; cbn in *.
  - destruct after as [|a after]; [reflexivity|].
    cbn in *. now destruct (isDigit a).
  - apply andb_true_iff in Hd. destruct Hd as [Hc Hd].
    rewrite Hc. now rewrite IH.
Qed.

Lemma match_prRegex_unfold (s : string) :
  match_prRegex s
  = match matchHere s with
    | Some m => Some m
    | None =>
        match s with
        | EmptyString => None
        | String _ s' => match_prRegex s'
        end
    end.
Proof. destruct s; reflexivity. Qed.

(** The search finds the number that the summary merges. *)
Lemma match_prRegex_complete (s digits : string) :
  mergesPullRequest s digits ->
  match_prRegex s
  = Some {| match_0 := prLiteral ++ digits; match_1 := digits |}.
Proof.
  intros (before & after & Hs & Hne & Hd & Ha & Hleft).
  revert s Hs Hleft. induction before as [|c before IH]; intros s Hs Hleft.
  - rewrite match_prRegex_unfold. cbn [append] in Hs. subst s.
    unfold matchHere.
    assert (E : startsWith (prLiteral ++ digits ++ after) prLiteral = true)
      by (apply startsWith_spec; now eexists).
    rewrite E, drop_prLiteral, (takeDigits_app _ _ Hd Ha).
    destruct digits; [congruence | reflexivity].
  - cbn [append] in Hs. subst s. cbn [match_prRegex].
    destruct (matchHere _) as [m|] eqn:E.
    + exfalso.
      destruct (matchHere_some _ _ E) as (after' & Hs' & _ & Hne' & Hd' & _).
      destruct (match_1 m) as [|d digits'] eqn:Em; [congruence|].
      cbn [allDigits] in Hd'. apply andb_true_iff in Hd'.
      destruct Hd' as [Hdig _].
      specialize (Hleft EmptyString d (digits' ++ after') Hs' Hdig).
      cbn in Hleft. lia.
    + apply IH; [reflexivity|].
      intros before' d after' Hs' Hdig.
      specialize (Hleft (String c before') d after').
      cbn [append] in Hleft. rewrite Hs' in Hleft.
      specialize (Hleft eq_refl Hdig). cbn in Hleft. lia.
Qed.

(** X12. The search of the merge pattern in a summary succeeds exactly when
    the summary reads "Merge pull request #" followed by a digit somewhere;
    its answer is the leftmost such place, and the capture is the whole run
    of digits that stands there. *)
Theorem match_prRegex_characterised (s : string) :
  (forall m,
     match_prRegex s = Some m
     <-> (mergesPullRequest s (match_1 m)
          /\ match_0 m = prLiteral ++ match_1 m))
  /\ (match_prRegex s = None
      <-> forall before d after,
            s = before ++ prLiteral ++ String d after -> isDigit d = false).
Proof.
  split.
  - intros m. split; [apply match_prRegex_some|].
    intros [Hm H0]. rewrite (match_prRegex_complete _ _ Hm).
    destruct m as [m0 m1]. cbn in *. now subst m0.
  - split; [apply match_prRegex_none|].
    intros Hnone. destruct (match_prRegex s) as [m|] eqn:E; [|reflexivity].
    exfalso.
    destruct (match_prRegex_some _ _ E) as [(l & r & Hs & Hne & Hd & _) _].
    destruct (match_1 m) as [|d digits]; [congruence|].
    cbn [allDigits] in Hd. apply andb_true_iff in Hd. destruct Hd as [Hd _].
    cbn [append] in Hs. rewrite (Hnone _ _ _ Hs) in Hd. discriminate.
Qed.

(** ** More on [filterCommits] *)

Lemma filterCommits_cons (c : CommitInfo) (commits : list CommitInfo)
    (excludeMergeBranches : option (list string)) :
  filterCommits (c :: commits) excludeMergeBranches
  = if excludedBy excludeMergeBranches c
    then filterCommits commits excludeMergeBranches
    else match match_prRegex (summary c) with
         | None => filterCommits commits excludeMergeBranches
         | Some m =>
             set_prNumber c (Number.parseInt (match_1 m))
               :: filterCommits commits excludeMergeBranches
         end.
Proof. reflexivity. Qed.

(** The loop as a selection followed by the setting of the number. *)
Lemma filterCommits_selection (commits : list CommitInfo)
    (excludeMergeBranches : option (list string)) :
  filterCommits commits excludeMergeBranches
  = map withMatchedNumber (filter (keptBy excludeMergeBranches) commits).
Proof.
  induction commits as [|c commits IH]; [reflexivity|].
  rewrite filterCommits_cons. cbn [filter]. unfold keptBy at 1.
  destruct (excludedBy excludeMergeBranches c); cbn [negb andb];
    [exact IH|].
  destruct (match_prRegex (summary c)) as [m|] eqn:E; [|exact IH].
  cbn [map]. rewrite <- IH. f_equal.
  unfold withMatchedNumber. now rewrite E.
Qed.

(** X13. The result of [filterCommits] is the input with commits left out
    and nothing reordered: it is the list of the commits that pass the
    exclude list and match the pattern, in the order of the input, each with
    the number of its summary as [prNumber] and otherwise unchanged. *)
Theorem filterCommits_in_order (commits : list CommitInfo)
    (excludeMergeBranches : option (list string)) :
  filterCommits commits excludeMergeBranches
  = map withMatchedNumber (filter (keptBy excludeMergeBranches) commits)
  /\ map sha (filterCommits commits excludeMergeBranches)
     = map sha (filter (keptBy excludeMergeBranches) commits)
  /\ map summary (filterCommits commits excludeMergeBranches)
     = map summary (filter (keptBy excludeMergeBranches) commits)
  /\ map commit_author (filterCommits commits excludeMergeBranches)
     = map commit_author (filter (keptBy excludeMergeBranches) commits).
Proof.
  rewrite filterCommits_selection.
  repeat split; rewrite map_map; apply map_ext;
    intros c; unfold withMatchedNumber;
    now destruct (match_prRegex (summary c)).
Qed.

(** X14. [filterCommits] is idempotent: filtering its own result with the
    same exclude list gives that result again. *)
Theorem filterCommits_idempotent (commits : list CommitInfo)
    (excludeMergeBranches : option (list string)) :
  filterCommits (filterCommits commits excludeMergeBranches)
    excludeMergeBranches
  = filterCommits commits excludeMergeBranches.
Proof.
  induction commits as [|c commits IH]; [reflexivity|].
  rewrite filterCommits_cons.
  destruct (excludedBy excludeMergeBranches c) eqn:Ex; [exact IH|].
  destruct (match_prRegex (summary c)) as [m|] eqn:Em; [|exact IH].
  rewrite filterCommits_cons.
  unfold excludedBy in *. cbn [set_prNumber summary]. rewrite Ex, Em.
  now rewrite IH.
Qed.

(** X15. [filterCommits] never reads the [prNumber] that a commit arrives
    with: whatever it was, the kept commit carries the number of its
    summary. *)
Theorem filterCommits_overwrites (commits : list CommitInfo)
    (excludeMergeBranches : option (list string)) (n : Number.t) :
  filterCommits (map (fun c => set_prNumber c n) commits) excludeMergeBranches
  = filterCommits commits excludeMergeBranches.
Proof.
  induction commits as [|c commits IH]; [reflexivity|].
  cbn [map]. rewrite !filterCommits_cons.
  unfold excludedBy. cbn [set_prNumber summary].
  destruct (match excludeMergeBranches with
            | Some excludes => matchedExclude (summary c) excludes
            | None => false
            end); [exact IH|].
  destruct (match_prRegex (summary c)); [|exact IH].
  now rewrite IH.
Qed.

Lemma includes_empty (s : string) : includes s EmptyString = true.
Proof. apply includes_spec. now exists EmptyString, s. Qed.

(** X16. An empty text in the exclude list excludes every commit: the
    result is empty whatever the commits are. *)
Theorem filterCommits_empty_exclude (commits : list CommitInfo)
    (excludes : list string) :
  In EmptyString excludes ->
  filterCommits commits (Some excludes) = [].
Proof.
  intros Hin.
  assert (Hall : forall s, matchedExclude s excludes = true).
  { intros s. apply matchedExclude_spec. exists EmptyString.
    split; [exact Hin | now exists EmptyString, s]. }
  induction commits as [|c commits IH]; [reflexivity|].
  rewrite filterCommits_cons. unfold excludedBy. now rewrite Hall.
Qed.

Lemma filterCommits_empty_exclude_witness :
  In EmptyString ["release/"; EmptyString]
  /\ filterCommits [featureMerge; releaseMerge] (Some ["release/"; EmptyString])
     = [].
Proof.
  assert (H : In EmptyString ["release/"; EmptyString]) by (right; now left).
  split; [exact H|].
  exact (filterCommits_empty_exclude [featureMerge; releaseMerge] _ H).
Defined.

(** X17. An empty exclude list excludes nothing, like no exclude list at
    all: both give the commits whose summary matches the pattern. *)
Theorem filterCommits_no_excludes (commits : list CommitInfo) :
  filterCommits commits (Some []) = filterCommits commits None
  /\ forall c, In c commits ->
       match_prRegex (summary c) <> None ->
       In (withMatchedNumber c) (filterCommits commits None).
Proof.
  split.
  - induction commits as [|c commits IH]; [reflexivity|].
    rewrite !filterCommits_cons. cbn [excludedBy matchedExclude].
    now rewrite IH.
  - intros c Hc Hm.
    rewrite filterCommits_selection.
    apply in_map, filter_In. split; [exact Hc|].
    unfold keptBy. cbn. now destruct (match_prRegex (summary c)).
Qed.

(** X18. A commit that no exclude text rules out and whose summary merges
    pull request number [digits] is kept, with that number as a JavaScript
    number in [prNumber]. *)
Theorem filterCommits_retains (commits : list CommitInfo)
    (excludes : list string) (c : CommitInfo) (digits : string) :
  In c commits ->
  (forall e, In e excludes -> ~ contains (summary c) e) ->
  mergesPullRequest (summary c) digits ->
  In (set_prNumber c (Number.ofInteger (Number.decimal 0 digits)))
     (filterCommits commits (Some excludes)).
Proof.
  intros Hc Hex Hm.
  rewrite filterCommits_selection.
  assert (Em := match_prRegex_complete _ _ Hm).
  destruct Hm as (l & r & _ & Hne & Hd & _).
  replace (set_prNumber c (Number.ofInteger (Number.decimal 0 digits)))
    with (withMatchedNumber c).
  - apply in_map, filter_In. split; [exact Hc|].
    unfold keptBy, excludedBy. rewrite Em.
    destruct (matchedExclude (summary c) excludes) eqn:Ex; [|reflexivity].
    exfalso. apply matchedExclude_spec in Ex.
    destruct Ex as (e & He & Hcont). exact (Hex e He Hcont).
  - unfold withMatchedNumber. rewrite Em. cbn [match_1].
    now rewrite (parseInt_digits _ Hne Hd).
Qed.

Lemma featureMerge_merges_12 : mergesPullRequest (summary featureMerge) "12".
Proof.
  exists EmptyString, " from dev/feature". repeat split; try reflexivity.
  - discriminate.
  - intros. cbn. lia.
Defined.

Lemma filterCommits_retains_witness :
  In (set_prNumber featureMerge (Number.Finite 12))
     (filterCommits [releaseMerge; featureMerge] (Some ["release/"])).
Proof.
  refine (filterCommits_retains [releaseMerge; featureMerge] ["release/"]
            featureMerge "12" _ _ featureMerge_merges_12).
  - right. now left.
  - intros e [<-|[]] Hc. apply includes_spec in Hc. discriminate Hc.
Defined.

(** ** The number of a kept commit *)

Lemma ofInteger_not_NaN (n : N) : Number.ofInteger n <> Number.NaN.
Proof.
  unfold Number.ofInteger.
  destruct (n <? 2 ^ 53)%N; [discriminate|].
  cbv zeta. destruct (2 ^ 1024 <=? _)%N; discriminate.
Qed.

(** From [2^1024] on, the nearest double is [Infinity]. *)
Lemma ofInteger_overflow (n : N) :
  (2 ^ 1024 <= n)%N -> Number.ofInteger n = Number.Infinity.
Proof.
  intros Hbig. unfold Number.ofInteger.
  assert (H53 : (2 ^ 53 <= 2 ^ 1024)%N)
    by (apply N.pow_le_mono_r; [discriminate | apply N.leb_le; reflexivity]).
  assert (Hlt : (n <? 2 ^ 53)%N = false) by (apply N.ltb_ge; lia).
  rewrite Hlt. cbv zeta.
  assert (Hpos : (0 < n)%N) by (apply N.lt_le_trans with (2 ^ 1024)%N;
                                [apply N.ltb_lt; reflexivity | exact Hbig]).
  assert (Hlog : (1024 <= N.log2 n)%N).
  { rewrite <- (N.log2_pow2 1024) by (apply N.le_0_l).
    now apply N.log2_le_mono. }
  destruct (N.log2_spec n Hpos) as [Hlow _].
  set (e := (N.log2 n - 52)%N) in *.
  assert (Esplit : (2 ^ N.log2 n = 2 ^ 52 * 2 ^ e)%N).
  { rewrite <- N.pow_add_r. f_equal. unfold e. lia. }
  assert (Hne : (2 ^ e <> 0)%N) by (apply N.pow_nonzero; discriminate).
  assert (Hq : (2 ^ 52 <= n / 2 ^ e)%N).
  { apply N.div_le_lower_bound; [exact Hne|]. rewrite N.mul_comm.
    now rewrite <- Esplit. }
  assert (Hpow : (2 ^ 1024 <= 2 ^ N.log2 n)%N)
    by (apply N.pow_le_mono_r; [discriminate | exact Hlog]).
  set (q := (n / 2 ^ e)%N) in *.
  set (up := ((2 ^ (e - 1) <? n mod 2 ^ e) || _)%N).
  assert (Hq' : (q <= (if up then q + 1 else q))%N) by (destruct up; lia).
  set (q' := if up then (q + 1)%N else q) in *.
  assert (Hv : (2 ^ 1024 <= q' * 2 ^ e)%N).
  { apply N.le_trans with (2 ^ N.log2 n)%N; [exact Hpow|].
    rewrite Esplit. apply N.mul_le_mono_r. lia. }
  apply N.leb_le in Hv. now rewrite Hv.
Qed.

(** X19. Every commit that [filterCommits] keeps has its [prNumber] set, to
    a number and never to [NaN]; it is the JavaScript number of the digits
    that its summary names after "Merge pull request #", and [Infinity]
    when these digits denote [2^1024] or more. *)
Theorem filterCommits_prNumber_defined (commits : list CommitInfo)
    (excludeMergeBranches : option (list string)) (c : CommitInfo) :
  In c (filterCommits commits excludeMergeBranches) ->
  exists digits,
    mergesPullRequest (summary c) digits
    /\ prNumber c = Some (Number.ofInteger (Number.decimal 0 digits))
    /\ prNumber c <> Some Number.NaN
    /\ ((2 ^ 1024 <= Number.decimal 0 digits)%N ->
        prNumber c = Some Number.Infinity).
Proof.
  intros Hc.
  destruct (in_filterCommits _ _ _ Hc) as (c0 & m & _ & _ & Hm & ->).
  destruct (match_prRegex_some _ _ Hm) as [Hmerge _].
  exists (match_1 m). cbn [set_prNumber summary prNumber].
  split; [exact Hmerge|].
  destruct Hmerge as (l & r & _ & Hne & Hd & _).
  rewrite (parseInt_digits _ Hne Hd).
  split; [reflexivity|]. split.
  - intros H. injection H as H. exact (ofInteger_not_NaN _ H).
  - intros Hbig. now rewrite (ofInteger_overflow _ Hbig).
Qed.

Lemma filterCommits_prNumber_defined_witness :
  In (set_prNumber featureMerge (Number.Finite 12))
     (filterCommits [featureMerge] None)
  /\ exists digits,
       mergesPullRequest (summary featureMerge) digits
       /\ Some (Number.Finite 12)
          = Some (Number.ofInteger (Number.decimal 0 digits))
       /\ Some (Number.Finite 12) <> Some Number.NaN
       /\ ((2 ^ 1024 <= Number.decimal 0 digits)%N ->
           Some (Number.Finite 12) = Some Number.Infinity).
Proof.
  assert (H : In (set_prNumber featureMerge (Number.Finite 12))
                (filterCommits [featureMerge] None))
    by (left; reflexivity).
  split; [exact H|].
  exact (filterCommits_prNumber_defined [featureMerge] None _ H).
Defined.

(** ** The action runner *)

Lemma andThen_issue {B : Type} (c : Command) (k : unit -> Action B) :
  andThen (issue c) k = (c :: fst (k tt), snd (k tt)).
Proof. unfold andThen, issue. now destruct (k tt). Qed.

Lemma fst_andThen {A B : Type} (m : Action A) (k : A -> Action B) :
  fst (andThen m k)
  = (fst m ++ match snd m with
              | Return a => fst (k a)
              | Throw _ => []
              end)%list.
Proof.
  unfold andThen. destruct m as [cs [a|e]]; cbn.
  - now destruct (k a).
  - now rewrite app_nil_r.
Qed.

Lemma snd_andThen {A B : Type} (m : Action A) (k : A -> Action B) :
  snd (andThen m k)
  = match snd m with
    | Return a => snd (k a)
    | Throw e => Throw e
    end.
Proof.
  unfold andThen. destruct m as [cs [a|e]]; cbn; [|reflexivity].
  now destruct (k a).
Qed.

Lemma tryCatchAction_spec {A : Type} (m : Action A) (handler : Error -> Action A) :
  tryCatchAction m handler
  = match snd m with
    | Return a => m
    | Throw e => ((fst m ++ fst (handler e))%list, snd (handler e))
    end.
Proof.
  unfold tryCatchAction. destruct m as [cs [a|e]]; cbn; [reflexivity|].
  now destruct (handler e).
Qed.

Lemma failures_app (a b : list Command) :
  failures (a ++ b) = (failures a ++ failures b)%list.
Proof.
  induction a as [|c a IH]; [reflexivity|].
  destruct c; cbn; now rewrite IH.
Qed.

Lemma outputValues_app (name : string) (a b : list Command) :
  outputValues name (a ++ b)
  = (outputValues name a ++ outputValues name b)%list.
Proof.
  induction a as [|c a IH]; [reflexivity|].
  destruct c; cbn; try (now rewrite IH).
  destruct (String.eqb name0 name); cbn; now rewrite IH.
Qed.

Lemma quiet_step {A B : Type} (c : nat) (m : Action A) (k : A -> Action B) :
  quiet 0 m -> (forall a, quiet c (k a)) -> quiet c (andThen m k).
Proof.
  intros (Hf & Ho & Hc) Hk. unfold quiet.
  rewrite fst_andThen, failures_app, !outputValues_app, length_app, Hf, Ho.
  apply Nat.le_0_r, length_zero_iff_nil in Hc. rewrite Hc.
  destruct (snd m) as [a|e]; cbn [app List.length Nat.add].
  - apply Hk.
  - repeat split; cbn; lia.
Qed.

Lemma quiet_changelog {B : Type} (value : string) (k : unit -> Action B) :
  (forall a, quiet 0 (k a)) ->
  quiet 1 (andThen (issue (SetOutput "changelog" value)) k).
Proof.
  intros Hk. destruct (Hk tt) as (Hf & Ho & Hc). unfold quiet.
  rewrite andThen_issue. cbn. rewrite Hf, Ho. repeat split. lia.
Qed.

Lemma quiet_call {A : Type} (answer : Completion A) : quiet 0 (call answer).
Proof. unfold quiet. cbn. auto. Qed.

Lemma quiet_done {A : Type} (a : A) : quiet 0 (done a).
Proof. unfold quiet. cbn. auto. Qed.

Lemma quiet_info (msg : string) : quiet 0 (issue (InfoLine msg)).
Proof. unfold quiet. cbn. auto. Qed.

Lemma quiet_debug (msg : string) : quiet 0 (issue (DebugLine msg)).
Proof. unfold quiet. cbn. auto. Qed.

(** Going through an action step by step. *)
Ltac quiet_steps :=
  repeat first
    [ apply quiet_call
    | apply quiet_done
    | apply quiet_info
    | apply quiet_debug
    | apply quiet_changelog; intros ?
    | apply quiet_step; [|intros ?]
    | match goal with
      | |- quiet _ (if ?b then _ else _) => destruct b
      | |- quiet _ (match ?o with Some _ => _ | None => _ end) => destruct o
      end ].

Lemma run_unsupported {Configuration Repository : Type}
    (env : Environment Configuration Repository) :
  isSupportedPlatform (orElse (getInput _ _ env "platform") "github") = false ->
  run _ _ env
  = ([ SetOutput "failed" "false";
       StartGroup "📘 Reading input values";
       SetFailed (notSupported (orElse (getInput _ _ env "platform") "github")) ],
     Return tt).
Proof.
  intros Hno. unfold run. cbv zeta. rewrite Hno. cbn [negb].
  rewrite !andThen_issue, tryCatchAction_spec. reflexivity.
Qed.

Lemma delivers_step {A B : Type} (m : Action A) (k : A -> Action B) :
  (forall a, delivers (k a)) -> delivers (andThen m k).
Proof.
  intros Hk b. rewrite snd_andThen, fst_andThen, outputValues_app.
  destruct (snd m) as [a|e]; [|discriminate].
  intros Hb Hnil. apply app_eq_nil in Hnil. destruct Hnil as [_ Hnil].
  exact (Hk a b Hb Hnil).
Qed.

(** *** The runner with a toolkit that may throw *)

Lemma run_is_runWith {Configuration Repository : Type}
    (env : Environment Configuration Repository) :
  run _ _ env = runWith _ _ alwaysWorks env.
Proof. reflexivity. Qed.

Lemma andThen_issueWith {B : Type} (toolkit : Toolkit) (c : Command)
    (k : unit -> Action B) :
  andThen (issueWith toolkit c) k
  = match toolkit c with
    | Return _ => (c :: fst (k tt), snd (k tt))
    | Throw e => ([], Throw e)
    end.
Proof.
  unfold andThen, issueWith.
  destruct (toolkit c); [now destruct (k tt) | reflexivity].
Qed.

Lemma quiet_issueWith_info (toolkit : Toolkit) (msg : string) :
  quiet 0 (issueWith toolkit (InfoLine msg)).
Proof. unfold quiet, issueWith. destruct (toolkit _); cbn; auto. Qed.

Lemma quiet_issueWith_debug (toolkit : Toolkit) (msg : string) :
  quiet 0 (issueWith toolkit (DebugLine msg)).
Proof. unfold quiet, issueWith. destruct (toolkit _); cbn; auto. Qed.

Lemma quiet_changelogWith {B : Type} (toolkit : Toolkit) (value : string)
    (k : unit -> Action B) :
  (forall a, quiet 0 (k a)) ->
  quiet 1 (andThen (issueWith toolkit (SetOutput "changelog" value)) k).
Proof.
  intros Hk. rewrite andThen_issueWith. unfold quiet.
  destruct (toolkit _); [|cbn; auto].
  destruct (Hk tt) as (Hf & Ho & Hc). cbn. rewrite Hf, Ho.
  repeat split. lia.
Qed.

Lemma delivers_changelogWith {B : Type} (toolkit : Toolkit) (value : string)
    (k : unit -> Action B) :
  delivers (andThen (issueWith toolkit (SetOutput "changelog" value)) k).
Proof.
  intros b. rewrite andThen_issueWith.
  destruct (toolkit _); cbn; [intros _|]; discriminate.
Qed.

Lemma quiet_failed {A : Type} (c : nat) (m : Action A) :
  quiet c m -> outputValues "failed" (fst m) = [].
Proof. unfold quiet. tauto. Qed.

Lemma quiet_failures {A : Type} (c : nat) (m : Action A) :
  quiet c m -> failures (fst m) = [].
Proof. unfold quiet. tauto. Qed.

Lemma quiet_changelog_bound {A : Type} (c : nat) (m : Action A) :
  quiet c m -> (List.length (outputValues "changelog" (fst m)) <= c)%nat.
Proof. unfold quiet. tauto. Qed.

Ltac quiet_steps_with :=
  repeat first
    [ apply quiet_call
    | apply quiet_done
    | apply quiet_issueWith_info
    | apply quiet_issueWith_debug
    | apply quiet_changelogWith; intros ?
    | apply quiet_step; [|intros ?]
    | match goal with
      | |- quiet _ (if ?b then _ else _) => destruct b
      | |- quiet _ (match ?o with Some _ => _ | None => _ end) => destruct o
      end ].

Section AroundTheTry.
Variable toolkit : Toolkit.
Variable body : Action unit.

(** What [run] makes of the [try] block [body]: the two commands before it
    and the handler after it. *)
Let whole : Action unit :=
  andThen (issueWith toolkit (SetOutput "failed" "false"))
    (fun _ =>
       andThen (issueWith toolkit (StartGroup "📘 Reading input values"))
         (fun _ =>
            tryCatchAction body
              (fun error => issueWith toolkit (SetFailed (message error))))).


Hypothesis body_failed : outputValues "failed" (fst body) = [].
Hypothesis body_changelog :
  (List.length (outputValues "changelog" (fst body)) <= 1)%nat.
Hypothesis body_failures :
  failures (fst body) = []
  \/ exists msg, fst body = [ SetFailed msg ] /\ snd body = Return tt.


Hypothesis body_delivers :
  forall a, snd body = Return a -> failures (fst body) = [] ->
            outputValues "changelog" (fst body) <> [].

Lemma whole_delivers :
  snd whole = Return tt -> failures (fst whole) = [] ->
  exists value, outputValues "changelog" (fst whole) = [ value ].
Proof.
  unfold whole. rewrite andThen_issueWith.
  destruct (toolkit (SetOutput "failed" "false")) as [u|e1];
    [|cbn; discriminate].
  rewrite andThen_issueWith.
  destruct (toolkit (StartGroup _)) as [u'|e2];
    [|cbn; discriminate].
  rewrite tryCatchAction_spec.
  destruct (snd body) as [a|e0] eqn:Eb.
  - cbn [fst snd]. cbn [outputValues failures String.eqb Ascii.eqb Bool.eqb].
    intros _ Hf. specialize (body_delivers a eq_refl Hf).
    destruct (outputValues "changelog" (fst body)) as [|v [|v' l]];
      [congruence | now exists v | cbn in body_changelog; lia].
  - unfold issueWith. destruct (toolkit (SetFailed (message e0))) as [u''|e3];
      cbn [fst snd]; [|discriminate].
    cbn [failures]. rewrite failures_app. cbn. intros _ Hnil.
    apply app_eq_nil in Hnil. destruct Hnil as [_ Hnil]. discriminate.
Qed.
End AroundTheTry.

(** The [try] block of [runWith]. *)
Ltac try_block :=
  unfold runWith; cbv zeta;
  match goal with
  | |- context [tryCatchAction ?b _] => set (body := b)
  end.

Lemma delivers_unless_failed {A : Type} (m : Action A) :
  delivers m ->
  forall a, snd m = Return a -> failures (fst m) = [] ->
            outputValues "changelog" (fst m) <> [].
Proof. intros Hd a Ha _. exact (Hd a Ha). Qed.

Ltac platform_case :=
  match goal with
  | b := _ : Action unit |- _ => subst b
  end;
  destruct (isSupportedPlatform _); cbn [negb].

Ltac toolkit_case :=
  unfold issueWith;
  match goal with
  | |- context [match ?x with Return _ => _ | Throw _ => _ end] =>
      destruct x as [[]|?]
  end.

(** What the [try] block of [runWith] keeps to, proved once the block is
    named [body]. *)
Ltac try_block_facts :=
  match goal with
  | body := _ : Action unit |- _ =>
      assert (body_failed : outputValues "failed" (fst body) = [])
        by (platform_case;
            [ apply (quiet_failed 1); quiet_steps_with
            | toolkit_case; reflexivity ]);
      assert (body_changelog :
                (List.length (outputValues "changelog" (fst body)) <= 1)%nat)
        by (platform_case;
            [ apply (quiet_changelog_bound 1); quiet_steps_with
            | toolkit_case; cbn; lia ]);
      assert (body_failures :
                failures (fst body) = []
                \/ exists msg, fst body = [ SetFailed msg ] /\ snd body = Return tt)
        by (platform_case;
            [ left; apply (quiet_failures 1); quiet_steps_with
            | toolkit_case;
              [ right; eexists; split; reflexivity | now left ] ]);
      assert (body_delivers :
                forall a, snd body = Return a -> failures (fst body) = [] ->
                          outputValues "changelog" (fst body) <> [])
        by (platform_case;
            [ apply delivers_unless_failed;
              repeat first [ apply delivers_changelogWith
                           | apply delivers_step; intros ? ]
            | intros a; toolkit_case; cbn; discriminate ])
  end.



(** X21. A run that returns without having signalled a failure has set the
    output [changelog]: [run] ends by rejecting, with a failure signalled,
    or with the changelog given out. *)
Theorem runWith_delivers_or_fails {Configuration Repository : Type}
    (toolkit : Toolkit) (env : Environment Configuration Repository) :
  snd (runWith _ _ toolkit env) = Return tt ->
  failures (fst (runWith _ _ toolkit env)) = [] ->
  exists value,
    outputValues "changelog" (fst (runWith _ _ toolkit env)) = [ value ].
Proof.
  try_block. try_block_facts. now apply whole_delivers.
Qed.

Lemma runWith_delivers_or_fails_witness :
  let env := sampleEnvironment [ ("owner", "acme") ] in
  (snd (runWith _ _ alwaysWorks env) = Return tt
   /\ failures (fst (runWith _ _ alwaysWorks env)) = [])
  /\ exists value,
       outputValues "changelog" (fst (runWith _ _ alwaysWorks env)) = [ value ].
Proof.
  cbv zeta.
  assert (Hr : snd (runWith _ _ alwaysWorks (sampleEnvironment [ ("owner", "acme") ]))
               = Return tt) by (vm_compute; reflexivity).
  assert (Hf : failures (fst (runWith _ _ alwaysWorks
                                (sampleEnvironment [ ("owner", "acme") ])))
               = []) by (vm_compute; reflexivity).
  split; [split; assumption|].
  exact (runWith_delivers_or_fails alwaysWorks
           (sampleEnvironment [ ("owner", "acme") ]) Hr Hf).
Defined.

Lemma changelog_tryCatch (m : Action unit) :
  outputValues "changelog"
    (fst (tryCatchAction m (fun error => issue (SetFailed (message error)))))
  = outputValues "changelog" (fst m).
Proof.
  rewrite tryCatchAction_spec. destruct (snd m); [reflexivity|].
  cbn [fst]. rewrite outputValues_app. cbn. apply app_nil_r.
Qed.

Lemma changelog_step {A B : Type} (G : string -> Prop) (m : Action A)
    (k : A -> Action B) :
  quiet 0 m ->
  (forall a, snd m = Return a ->
     forall value, outputValues "changelog" (fst (k a)) = [ value ] -> G value) ->
  forall value,
    outputValues "changelog" (fst (andThen m k)) = [ value ] -> G value.
Proof.
  intros (_ & _ & Hc) Hk value.
  apply Nat.le_0_r, length_zero_iff_nil in Hc.
  rewrite fst_andThen, outputValues_app, Hc. cbn [app].
  destruct (snd m) as [a|e]; [now apply Hk | discriminate].
Qed.

(** X22. When [run] sets the output [changelog], its value is what a call
    of the builder returned, with [null] written as the empty text, and the
    arguments of that call are drawn from the inputs: the path, the tags,
    the cache and the base URL as given, each flag on exactly when its
    input reads true, the owner and the repository from the inputs or else
    from the workflow context, the platform instance made with the chosen
    token. *)
Theorem run_changelog_from_build {Configuration Repository : Type}
    (env : Environment Configuration Repository) (value : string) :
  outputValues "changelog" (fst (run _ _ env)) = [ value ] ->
  exists args result,
    build _ _ env args = Return result
    /\ value = toCommandValue result
    /\ builtFromInputs env args.
Proof.
  destruct (isSupportedPlatform (orElse (getInput _ _ env "platform") "github"))
    eqn:Hp.
  - unfold run. cbv zeta. rewrite Hp. cbn [negb].
    rewrite !andThen_issue. cbn [fst outputValues String.eqb Ascii.eqb Bool.eqb].
    rewrite changelog_tryCatch. revert value.
    apply changelog_step; [quiet_steps | intros repositoryPath Hpath].
    apply changelog_step; [quiet_steps | intros configJson _].
    apply changelog_step; [quiet_steps | intros configFile Hfile].
    apply changelog_step; [quiet_steps | intros _ _].
    apply changelog_step; [quiet_steps | intros _ _].
    apply changelog_step; [quiet_steps | intros configuration Hmerge].
    apply changelog_step; [quiet_steps | intros owner Howner].
    apply changelog_step; [quiet_steps | intros repo Hrepo].
    apply changelog_step; [quiet_steps | intros repositoryUtils Hutils].
    apply changelog_step; [quiet_steps | intros result Hbuild].
    intros value. rewrite andThen_issue.
    cbn [fst outputValues String.eqb Ascii.eqb Bool.eqb].
    match goal with
    | |- context [outputValues "changelog" (fst ?tail)] =>
        assert (Hq : quiet 0 tail) by quiet_steps;
        destruct Hq as (_ & _ & Hc);
        apply Nat.le_0_r, length_zero_iff_nil in Hc; rewrite Hc
    end.
    intros Hv. injection Hv as <-.
    cbn [snd call] in *.
    eexists. exists result. split; [exact Hbuild|]. split; [reflexivity|].
    unfold builtFromInputs, flag, chosenToken. cbn.
    repeat (split; [first [reflexivity | eassumption]|]).
    exists configJson, configFile. split; assumption.
  - rewrite (run_unsupported env Hp). cbn. discriminate.
Qed.

Lemma run_changelog_from_build_witness :
  let env := sampleEnvironment [ ("owner", "acme"); ("includeOpen", "true") ] in
  outputValues "changelog" (fst (run _ _ env)) = [ "Changes of acme/hello" ]
  /\ exists args result,
       build _ _ env args = Return result
       /\ "Changes of acme/hello" = toCommandValue result
       /\ builtFromInputs env args.
Proof.
  cbv zeta.
  assert (H : outputValues "changelog"
                (fst (run _ _ (sampleEnvironment
                                 [ ("owner", "acme"); ("includeOpen", "true") ])))
              = [ "Changes of acme/hello" ])
    by (vm_compute; reflexivity).
  split; [exact H|].
  exact (run_changelog_from_build _ _ H).
Defined.



(** X24. With the inputs [owner] and [repo] both given, [run] never reads
    the workflow context: whatever the context is, even one that throws for
    want of a repository, the run is the same. *)
Theorem run_context_unused {Configuration Repository : Type}
    (env : Environment Configuration Repository)
    (context context' : Completion (string * string)) :
  getInput _ _ env "owner" <> EmptyString ->
  getInput _ _ env "repo" <> EmptyString ->
  run _ _ (withContext _ _ env context) = run _ _ (withContext _ _ env context').
Proof.
  intros Howner Hrepo. unfold run, inputOrContext, new_supportedPlatform.
  cbn [withContext getInput env_GITHUB_TOKEN context_repo retrieveRepositoryPath
       parseConfiguration resolveConfiguration mergeConfiguration
       new_GithubRepository new_GiteaRepository build writeOutput
       notAConstructor].
  destruct (getInput _ _ env "owner") as [|a owner]; [congruence|].
  destruct (getInput _ _ env "repo") as [|b repo]; [congruence|].
  reflexivity.
Qed.

Lemma run_context_unused_witness :
  let env := sampleEnvironment [ ("owner", "acme"); ("repo", "tools") ] in
  run _ _ (withContext _ _ env (Throw serverError))
  = run _ _ (withContext _ _ env (Return ("octo", "hello"))).
Proof.
  cbv zeta.
  refine (run_context_unused
            (sampleEnvironment [ ("owner", "acme"); ("repo", "tools") ])
            (Throw serverError) (Return ("octo", "hello")) _ _);
    cbn; discriminate.
Defined.

(** X25. Without the input [outputFile], [run] writes no file: the function
    that writes is not called, whatever it would do. *)
Theorem run_write_unused {Configuration Repository : Type}
    (env : Environment Configuration Repository)
    (write write' : string -> string -> option string -> Completion unit) :
  getInput _ _ env "outputFile" = EmptyString ->
  run _ _ (withWriteOutput _ _ env write)
  = run _ _ (withWriteOutput _ _ env write').
Proof.
  intros Hnone. unfold run, inputOrContext, new_supportedPlatform.
  cbn [withWriteOutput getInput env_GITHUB_TOKEN context_repo
       retrieveRepositoryPath parseConfiguration resolveConfiguration
       mergeConfiguration new_GithubRepository new_GiteaRepository build
       writeOutput notAConstructor].
  revert Hnone. generalize (getInput _ _ env "outputFile"). intros s ->.
  reflexivity.
Qed.

Lemma run_write_unused_witness :
  let env := sampleEnvironment [ ("owner", "acme") ] in
  run _ _ (withWriteOutput _ _ env (fun _ _ _ => Throw serverError))
  = run _ _ (withWriteOutput _ _ env (fun _ _ _ => Return tt)).
Proof.
  cbv zeta.
  exact (run_write_unused (sampleEnvironment [ ("owner", "acme") ])
           (fun _ _ _ => Throw serverError) (fun _ _ _ => Return tt) eq_refl).
Defined.

(** Pages of five and a bound of five: the first page reaches the bound, so
    one request is sent and five items are returned. *)
Example getBetweenDates_pages_of_five :
  let call :=
    getBetweenDates (platformWith pagesOfFive) "o" "r"
      (Moment.Valid 50) (Moment.Valid 1000) 5 in
  requested call = 1%nat
  /\ exists l, completion call = Return l /\ List.length l = 5%nat.
Proof.
  cbv zeta. split; [vm_compute; reflexivity|].
  eexists. split; [vm_compute; reflexivity | reflexivity].
Qed.
